(** * FlashInfer attention backend: metadata, session lifecycle and dispatch

    A shallow embedding of [vllm/attention/backends/flashinfer.py]:
    [FlashInferBackend], the [FlashInferMetadata] dataclass with its
    [begin_forward] planning step, and [FlashInferImpl] with its [forward]
    dispatcher.  Python objects that are mutated in place (the metadata, the
    kernel wrappers) live in an explicit store that every operation threads;
    exceptions are values of a result type and leave the store as it was when
    they were raised. *)

From Corelib Require Import PrimFloat.
From Corelib Require FloatOps SpecFloat.
From stdpp Require Import gmap strings list fin_maps.

Local Open Scope Z_scope.

(** ** Python: exceptions and the store-passing monad *)

Module Py.

(** The exception classes the file raises.  An [AssertionError] carries the
    message of its [assert] statement, when the statement has one. *)
Inductive exn : Type :=
| ValueError
| NotImplementedError
| AssertionError (msg : option string)
| ZeroDivisionError
| AttributeError
| RuntimeError.

Inductive res (A : Type) : Type :=
| Ok (a : A)
| Raise (e : exn).
Arguments Ok {A} a.
Arguments Raise {A} e.

(** A computation over a store [S]: the result, and the store it leaves,
    whether it returned or raised. *)
Definition M (S A : Type) : Type := S -> res A * S.

Definition ret {S A} (a : A) : M S A := fun s => (Ok a, s).

Definition bind {S A B} (m : M S A) (k : A -> M S B) : M S B :=
  fun s => match m s with
           | (Ok a, s') => k a s'
           | (Raise e, s') => (Raise e, s')
           end.

Definition raise {S A} (e : exn) : M S A := fun s => (Raise e, s).

Definition get {S} : M S S := fun s => (Ok s, s).

Definition modify {S} (f : S -> S) : M S unit := fun s => (Ok tt, f s).

(** [assert c] and [assert c, msg]. *)
Definition assert {S} (c : bool) (msg : option string) : M S unit :=
  if c then ret tt else raise (AssertionError msg).

(** A storeless result (a property, a constructor) used inside a
    computation. *)
Definition lift {S A} (r : res A) : M S A := fun s => (r, s).

End Py.

Import Py.

Declare Scope py_scope.
Delimit Scope py_scope with py.
Notation "x <- m ;; k" := (bind m (fun x => k))
  (at level 100, m at next level, right associativity, only parsing) : py_scope.
Notation "m ;; k" := (bind m (fun _ => k))
  (at level 100, right associativity, only parsing) : py_scope.
Local Open Scope py_scope.

(** ** The tensor library, as far as this layer observes it *)

Module Torch.

Inductive device : Type :=
| cpu
| cuda (index : N).

Definition device_eqb (a b : device) : bool :=
  match a, b with
  | cpu, cpu => true
  | cuda i, cuda j => N.eqb i j
  | _, _ => false
  end.

Inductive dtype : Type := float16 | bfloat16 | float32 | float8_e4m3fn.

(** The element a Python float becomes in a tensor of dtype [float32]: the
    binary64 value rounded to binary32, to nearest with ties to even; beyond
    the binary32 range it becomes an infinity, and zeros, infinities and NaN
    stay what they are. *)
Definition to_float32 (x : float) : float :=
  match FloatOps.Prim2SF x with
  | SpecFloat.S754_finite s m e =>
      FloatOps.SF2Prim (SpecFloat.binary_round 24 128 s m e)
  | _ => x
  end.

(** [torch.tensor(xs, dtype=torch.float32)], by its elements. *)
Definition tensor_float32 (xs : list float) : list float := map to_float32 xs.

(** A tensor object: its identity, the device that holds it, and its
    elements (page tables and offsets are integer tensors). *)
Record tensor : Type := Tensor {
  t_id : positive;
  t_device : device;
  t_data : list Z
}.

End Torch.

(** ** The kernel library: the two paged-attention wrappers *)

Module Wrapper.

(** What a wrapper is planned with: the arguments of its [begin_forward], in
    the order [FlashInferMetadata.begin_forward] passes them. *)
Inductive plan : Type :=
| PrefillPlan (qo_indptr paged_kv_indptr paged_kv_indices
               paged_kv_last_page_len : option Torch.tensor)
              (num_qo_heads num_kv_heads head_dim page_size : option Z)
| DecodePlan (indptr indices last_page_len : option Torch.tensor)
             (num_qo_heads num_kv_heads head_dim page_size : option Z)
             (pos_encoding_mode : string)
             (data_type : option Torch.dtype).

(** Modelled from the spec: the wrapper classes
    [BatchPrefillWithPagedKVCacheWrapper] and
    [BatchDecodeWithPagedKVCacheWrapper] belong to the kernel library and are
    only imported by the source.  A wrapper holds the plans that are active
    on it: none when [Idle], one when [Planned].  [begin_forward] adds a
    plan, [end_forward] releases whatever is held and may be called when
    already idle, and [forward] (the spec's [compute]) needs a plan. *)
Definition session : Type := list plan.

(** Modelled from the spec: the wrapper's [begin_forward] (the kernel
    object's [beginPlan]) makes a plan active, on top of any the wrapper
    still holds. *)
Definition begin_forward (p : plan) (s : session) : session := p :: s.

(** Modelled from the spec: the wrapper's [end_forward] ([endPlan]) releases
    the internal plan and is idempotent, callable when already [Idle]. *)
Definition end_forward (s : session) : session := [].

(** Modelled from the spec: [compute] requires the [Planned] state. *)
Definition can_forward (s : session) : bool :=
  match s with
  | [] => false
  | _ :: _ => true
  end.

End Wrapper.

(** ** vllm.attention.backends.abstract *)

Inductive AttentionType : Type := DECODER | ENCODER | ENCODER_DECODER.

Definition AttentionType_eqb (a b : AttentionType) : bool :=
  match a, b with
  | DECODER, DECODER | ENCODER, ENCODER | ENCODER_DECODER, ENCODER_DECODER => true
  | _, _ => false
  end.

(** ** The store *)

(** A value that [forward] handles: a tensor it was given, or the result of
    an earlier call to the tensor or kernel library, by its position in the
    log of calls. *)
Inductive value : Type :=
| Arg (t : Torch.tensor)
| Res (i : nat).

Inductive dim : Type :=
| Lit (n : Z)
| Size (x : value) (axis : nat).

(** The calls [forward] makes to the tensor library, to the cache-write
    kernel and to the attention kernels, with their arguments. *)
Inductive call : Type :=
| view (x : value) (shape : list dim)
| getitem_col (x : value) (i : Z)
| flatten (x : value)
| contiguous (x : value)
| reshape_and_cache_flash (key val key_cache value_cache slot_mapping : value)
                          (kv_cache_dtype : string)
| flash_attn_varlen_func (q k v : value)
                         (cu_seqlens_q cu_seqlens_k : option Torch.tensor)
                         (max_seqlen_q max_seqlen_k : Z)
                         (softmax_scale : float) (causal : bool)
                         (window_size : Z * Z)
                         (alibi_slopes : option (list float))
| prefill_wrapper_forward (wrapper : positive) (query kv_cache : value)
                          (logits_soft_cap : option float) (causal : bool)
| decode_wrapper_forward (wrapper : positive) (query : value)
                         (kv_cache : option value) (sm_scale : float)
                         (logits_soft_cap : option float).

(** The wrapper objects by reference, the next free tensor identity, and
    the log of library calls, oldest first. *)
Record world : Type := World {
  sessions : gmap positive Wrapper.session;
  next_id : positive;
  trace : list call
}.

Definition session_of (w : world) (r : positive) : Wrapper.session :=
  default [] (sessions w !! r).

Definition set_session (r : positive) (s : Wrapper.session) (w : world) : world :=
  {| sessions := <[r := s]> (sessions w); next_id := next_id w; trace := trace w |}.

(** [t.to(d)]: the tensor itself when it is already on [d], a fresh copy on
    [d] otherwise. *)
Definition tensor_to (t : Torch.tensor) (d : Torch.device) : M world Torch.tensor :=
  fun w =>
    if Torch.device_eqb (Torch.t_device t) d then (Ok t, w)
    else (Ok (Torch.Tensor (next_id w) d (Torch.t_data t)),
          {| sessions := sessions w; next_id := Pos.succ (next_id w);
             trace := trace w |}).

(** A library call: logged, its result named by its position in the log. *)
Definition do_call (c : call) : M world value :=
  fun w => (Ok (Res (length (trace w))),
            {| sessions := sessions w; next_id := next_id w;
               trace := trace w ++ [c] |}).

(** ** FlashInferBackend *)

Module FlashInferBackend.

Definition get_name : string := "flashinfer".

Definition get_kv_cache_shape (num_blocks block_size num_kv_heads head_size : Z)
  : list Z :=
  [num_blocks; 2; block_size; num_kv_heads; head_size].

Definition swap_blocks {A} : res A := Raise NotImplementedError.

Definition copy_blocks {A} : res A := Raise NotImplementedError.

Definition get_supported_head_sizes : list Z := [64; 128; 256].

End FlashInferBackend.

(** ** FlashInferMetadata *)

(** A Python value as a dataclass field holds it. *)
Inductive pyval : Type :=
| PyNone
| PyInt (n : Z)
| PyBool (b : bool)
| PyFloat (x : float)
| PyTensor (t : Torch.tensor)
| PyObject (ref : positive)
| PyDtype (d : Torch.dtype)
| PyDevice (d : Torch.device).

Definition py_opt {A} (f : A -> pyval) (x : option A) : pyval :=
  match x with
  | Some a => f a
  | None => PyNone
  end.

Module FlashInferMetadata.

(** The dataclass.  The first four fields are those the base class
    [AttentionMetadata] declares and this file reads; the token and request
    counts are natural numbers.  A wrapper field holds a reference into the
    store. *)
Record t : Type := Build {
  num_prefills : N;
  num_prefill_tokens : N;
  num_decode_tokens : N;
  slot_mapping : Torch.tensor;
  max_prefill_seq_len : Z;
  use_cuda_graph : bool;
  prefill_wrapper : option positive;
  decode_wrapper : option positive;
  seq_start_loc : option Torch.tensor;
  query_start_loc : option Torch.tensor;
  block_tables : option Torch.tensor;
  paged_kv_indptr : option Torch.tensor;
  paged_kv_indices : option Torch.tensor;
  paged_kv_last_page_len : option Torch.tensor;
  num_qo_heads : option Z;
  num_kv_heads : option Z;
  head_dim : option Z;
  page_size : option Z;
  data_type : option Torch.dtype;
  device : Torch.device;
  logits_soft_cap : option float
}.

Definition set_paged_kv_indptr (v : option Torch.tensor) (self : t) : t :=
  Build (num_prefills self) (num_prefill_tokens self) (num_decode_tokens self)
    (slot_mapping self) (max_prefill_seq_len self) (use_cuda_graph self)
    (prefill_wrapper self) (decode_wrapper self) (seq_start_loc self)
    (query_start_loc self) (block_tables self)
    v (paged_kv_indices self) (paged_kv_last_page_len self)
    (num_qo_heads self) (num_kv_heads self) (head_dim self) (page_size self)
    (data_type self) (device self) (logits_soft_cap self).

Definition set_paged_kv_indices (v : option Torch.tensor) (self : t) : t :=
  Build (num_prefills self) (num_prefill_tokens self) (num_decode_tokens self)
    (slot_mapping self) (max_prefill_seq_len self) (use_cuda_graph self)
    (prefill_wrapper self) (decode_wrapper self) (seq_start_loc self)
    (query_start_loc self) (block_tables self)
    (paged_kv_indptr self) v (paged_kv_last_page_len self)
    (num_qo_heads self) (num_kv_heads self) (head_dim self) (page_size self)
    (data_type self) (device self) (logits_soft_cap self).

Definition set_paged_kv_last_page_len (v : option Torch.tensor) (self : t) : t :=
  Build (num_prefills self) (num_prefill_tokens self) (num_decode_tokens self)
    (slot_mapping self) (max_prefill_seq_len self) (use_cuda_graph self)
    (prefill_wrapper self) (decode_wrapper self) (seq_start_loc self)
    (query_start_loc self) (block_tables self)
    (paged_kv_indptr self) (paged_kv_indices self) v
    (num_qo_heads self) (num_kv_heads self) (head_dim self) (page_size self)
    (data_type self) (device self) (logits_soft_cap self).

(** [__post_init__]: the head dimension, when given, is one of the supported
    sizes. *)
Definition __post_init__ (self : t) : res unit :=
  let supported_head_sizes := FlashInferBackend.get_supported_head_sizes in
  match head_dim self with
  | Some d =>
      if negb (bool_decide (d ∈ supported_head_sizes)) then Raise ValueError
      else Ok tt
  | None => Ok tt
  end.

(** Construction: the generated [__init__] stores the fields and runs
    [__post_init__]. *)
Definition new (fields : t) : res t :=
  match __post_init__ fields with
  | Ok _ => Ok fields
  | Raise e => Raise e
  end.

(** *** begin_forward

    The method mutates [self] and the wrapper it plans; its store is the
    metadata object together with the world. *)

Definition self_get {A} (f : t -> A) : M (t * world) A :=
  fun s => (Ok (f (fst s)), s).

Definition self_set (f : t -> t) : M (t * world) unit :=
  fun s => (Ok tt, (f (fst s), snd s)).

Definition in_world {A} (m : M world A) : M (t * world) A :=
  fun s => let (r, w') := m (snd s) in (r, (fst s, w')).

Definition is_not_None {A} (x : option A) : bool :=
  match x with
  | Some _ => true
  | None => false
  end.

(** [self.f = self.f.to(self.device)] *)
Definition field_to_device (f : t -> option Torch.tensor)
    (set_f : option Torch.tensor -> t -> t) : M (t * world) unit :=
  x <- self_get f ;;
  d <- self_get device ;;
  match x with
  | None => raise AttributeError
  | Some a => a' <- in_world (tensor_to a d) ;; self_set (set_f (Some a'))
  end.

Definition wrapper_end_forward (r : positive) : M (t * world) unit :=
  in_world (modify (fun w => set_session r (Wrapper.end_forward (session_of w r)) w)).

Definition wrapper_begin_forward (r : positive) (p : Wrapper.plan)
  : M (t * world) unit :=
  in_world (modify (fun w => set_session r (Wrapper.begin_forward p (session_of w r)) w)).

Definition begin_forward : M (t * world) unit :=
  npt <- self_get num_prefill_tokens ;;
  if (0 <? npt)%N then
    indices <- self_get paged_kv_indices ;;
    match indices with
    | None => ret tt
    | Some _ =>
        pw <- self_get prefill_wrapper ;;
        assert (is_not_None pw) None ;;
        i1 <- self_get paged_kv_indices ;;
        assert (is_not_None i1) None ;;
        i2 <- self_get paged_kv_indptr ;;
        assert (is_not_None i2) None ;;
        i3 <- self_get paged_kv_last_page_len ;;
        assert (is_not_None i3) None ;;
        field_to_device paged_kv_indices set_paged_kv_indices ;;
        field_to_device paged_kv_indptr set_paged_kv_indptr ;;
        field_to_device paged_kv_last_page_len set_paged_kv_last_page_len ;;
        match pw with
        | None => raise AttributeError
        | Some r =>
            wrapper_end_forward r ;;
            self <- self_get id ;;
            wrapper_begin_forward r
              (Wrapper.PrefillPlan
                 (query_start_loc self) (paged_kv_indptr self)
                 (paged_kv_indices self) (paged_kv_last_page_len self)
                 (num_qo_heads self) (num_kv_heads self) (head_dim self)
                 (page_size self))
        end
    end
  else
    ucg <- self_get use_cuda_graph ;;
    (if negb ucg then
       i1 <- self_get paged_kv_indices ;;
       assert (is_not_None i1) None ;;
       i2 <- self_get paged_kv_indptr ;;
       assert (is_not_None i2) None ;;
       i3 <- self_get paged_kv_last_page_len ;;
       assert (is_not_None i3) None ;;
       field_to_device paged_kv_indices set_paged_kv_indices ;;
       field_to_device paged_kv_indptr set_paged_kv_indptr ;;
       field_to_device paged_kv_last_page_len set_paged_kv_last_page_len
     else ret tt) ;;
    dw <- self_get decode_wrapper ;;
    assert (is_not_None dw) None ;;
    match dw with
    | None => raise AttributeError
    | Some r =>
        wrapper_end_forward r ;;
        self <- self_get id ;;
        wrapper_begin_forward r
          (Wrapper.DecodePlan
             (paged_kv_indptr self) (paged_kv_indices self)
             (paged_kv_last_page_len self)
             (num_qo_heads self) (num_kv_heads self) (head_dim self)
             (page_size self) "NONE" (data_type self))
    end.

(** *** asdict_zerocopy *)

(** The dataclass fields in declaration order, base class first. *)
Definition fields (self : t) : list (string * pyval) :=
  [ ("num_prefills", PyInt (Z.of_N (num_prefills self)));
    ("num_prefill_tokens", PyInt (Z.of_N (num_prefill_tokens self)));
    ("num_decode_tokens", PyInt (Z.of_N (num_decode_tokens self)));
    ("slot_mapping", PyTensor (slot_mapping self));
    ("max_prefill_seq_len", PyInt (max_prefill_seq_len self));
    ("use_cuda_graph", PyBool (use_cuda_graph self));
    ("prefill_wrapper", py_opt PyObject (prefill_wrapper self));
    ("decode_wrapper", py_opt PyObject (decode_wrapper self));
    ("seq_start_loc", py_opt PyTensor (seq_start_loc self));
    ("query_start_loc", py_opt PyTensor (query_start_loc self));
    ("block_tables", py_opt PyTensor (block_tables self));
    ("paged_kv_indptr", py_opt PyTensor (paged_kv_indptr self));
    ("paged_kv_indices", py_opt PyTensor (paged_kv_indices self));
    ("paged_kv_last_page_len", py_opt PyTensor (paged_kv_last_page_len self));
    ("num_qo_heads", py_opt PyInt (num_qo_heads self));
    ("num_kv_heads", py_opt PyInt (num_kv_heads self));
    ("head_dim", py_opt PyInt (head_dim self));
    ("page_size", py_opt PyInt (page_size self));
    ("data_type", py_opt PyDtype (data_type self));
    ("device", PyDevice (device self));
    ("logits_soft_cap", py_opt PyFloat (logits_soft_cap self)) ].

(** Modelled from the spec: [AttentionMetadata.asdict_zerocopy], the base
    class method of [abstract.py] that the override ends in, is not in the
    source given.  It is the transmitted representation: one entry per
    dataclass field, by name, for the fields not named in [skip_fields]. *)
Definition base_asdict_zerocopy (self : t) (skip_fields : gset string)
  : gmap string pyval :=
  list_to_map (filter (fun kv => kv.1 ∉ skip_fields) (fields self)).

Section Broadcast.

(** [super().asdict_zerocopy] *)
Variable super_asdict_zerocopy : t -> gset string -> gmap string pyval.

(** The override.  [skip_fields.add] mutates the caller's set, so the set as
    the caller sees it afterwards is returned with the dictionary. *)
Definition asdict_zerocopy (self : t) (skip_fields : option (gset string))
  : gmap string pyval * gset string :=
  let skip_fields := default ∅ skip_fields in
  let skip_fields := skip_fields ∪ {["prefill_wrapper"]} in
  let skip_fields := skip_fields ∪ {["decode_wrapper"]} in
  (super_asdict_zerocopy self skip_fields, skip_fields).

End Broadcast.

(** *** The classification properties *)

Definition prefill_metadata (self : t) : res (option t) :=
  if (num_decode_tokens self =? 0)%N then
    if (0 <? num_prefills self)%N then Ok (Some self)
    else Raise (AssertionError None)
  else Ok None.

Definition decode_metadata (self : t) : res (option t) :=
  if (0 <? num_prefills self)%N then
    if (num_decode_tokens self =? 0)%N then Ok None
    else Raise (AssertionError None)
  else Ok (Some self).

End FlashInferMetadata.

(** ** FlashInferImpl *)

Module FlashInferImpl.

Record t : Type := Build {
  num_heads : Z;
  head_size : Z;
  scale : float;
  num_kv_heads : Z;
  alibi_slopes : option (list float);
  sliding_window : Z * Z;
  kv_cache_dtype : string;
  num_queries_per_kv : Z
}.

(** [alibi_slopes], when given, is stored as a [float32] tensor.  [%] and
    [//] raise on a zero divisor; otherwise they are the floored operations,
    which are [Z.modulo] and [Z.div]. *)
Definition __init__ (num_heads head_size : Z) (scale : float) (num_kv_heads : Z)
    (alibi_slopes : option (list float)) (sliding_window : option Z)
    (kv_cache_dtype : string) (blocksparse_params : option (gmap string pyval))
  : res t :=
  match sliding_window with
  | Some _ => Raise ValueError
  | None =>
      if num_kv_heads =? 0 then Raise ZeroDivisionError
      else if negb (num_heads mod num_kv_heads =? 0) then Raise (AssertionError None)
      else Ok (Build num_heads head_size scale num_kv_heads
                 (option_map Torch.tensor_float32 alibi_slopes)
                 (-1, -1) kv_cache_dtype (num_heads / num_kv_heads))
  end.

Definition k_scale_msg : string := "key/v_scale is not supported in FlashInfer.".

Definition chunked_prefill_msg : string :=
  "Chunked prefill is not supported with flashinfer yet.".

(** Modelled from the spec: a wrapper's [forward] is the kernel library's.
    The kernel runs on the plan the wrapper holds; called on an idle wrapper
    it is a precondition violation, which aborts the call. *)
Definition wrapper_forward (r : positive) (c : call) : M world value :=
  w <- get ;;
  if Wrapper.can_forward (session_of w r) then do_call c
  else raise RuntimeError.

(** [forward].  The tensor library and the kernels are called, not modelled:
    a call is logged with its arguments and returns.  That [query] is
    two-dimensional, that the three reshapes fit and that the kernel modules
    were imported is the callers' precondition; what [forward] does on a
    tensor of another shape is outside this embedding. *)
Definition forward (self : t) (query key val : Torch.tensor)
    (kv_cache : option Torch.tensor) (attn_metadata : FlashInferMetadata.t)
    (k_scale v_scale : float) (attn_type : AttentionType) : M world value :=
  assert (PrimFloat.eqb k_scale 1 && PrimFloat.eqb v_scale 1) (Some k_scale_msg) ;;
  (if negb (AttentionType_eqb attn_type DECODER) then raise NotImplementedError
   else ret tt) ;;
  let num_tokens := Size (Arg query) 0 in
  let hidden_size := Size (Arg query) 1 in
  query <- do_call (view (Arg query) [Lit (-1); Lit (num_heads self); Lit (head_size self)]) ;;
  key <- do_call (view (Arg key) [Lit (-1); Lit (num_kv_heads self); Lit (head_size self)]) ;;
  val <- do_call (view (Arg val) [Lit (-1); Lit (num_kv_heads self); Lit (head_size self)]) ;;
  (if (0 <? FlashInferMetadata.num_prefill_tokens attn_metadata)%N then
     assert (FlashInferMetadata.num_decode_tokens attn_metadata =? 0)%N
       (Some chunked_prefill_msg)
   else ret tt) ;;
  (if (0 <? FlashInferMetadata.num_decode_tokens attn_metadata)%N then
     assert (FlashInferMetadata.num_prefill_tokens attn_metadata =? 0)%N
       (Some chunked_prefill_msg)
   else ret tt) ;;
  match kv_cache with
  | Some c =>
      key_cache <- do_call (getitem_col (Arg c) 0) ;;
      value_cache <- do_call (getitem_col (Arg c) 1) ;;
      slots <- do_call (flatten (Arg (FlashInferMetadata.slot_mapping attn_metadata))) ;;
      _ <- do_call (reshape_and_cache_flash key val key_cache value_cache slots
                      (kv_cache_dtype self)) ;;
      ret tt
  | None => ret tt
  end ;;
  query <- do_call (contiguous query) ;;
  prefill_meta <- lift (FlashInferMetadata.prefill_metadata attn_metadata) ;;
  output <-
    match prefill_meta with
    | Some prefill_meta =>
        match kv_cache with
        | None =>
            do_call (flash_attn_varlen_func query key val
                       (FlashInferMetadata.seq_start_loc prefill_meta)
                       (FlashInferMetadata.seq_start_loc prefill_meta)
                       (FlashInferMetadata.max_prefill_seq_len prefill_meta)
                       (FlashInferMetadata.max_prefill_seq_len prefill_meta)
                       (scale self) true (sliding_window self)
                       (alibi_slopes self))
        | Some c =>
            assert (FlashInferMetadata.is_not_None
                      (FlashInferMetadata.prefill_wrapper prefill_meta)) None ;;
            match FlashInferMetadata.prefill_wrapper prefill_meta with
            | None => raise AttributeError
            | Some r =>
                wrapper_forward r
                  (prefill_wrapper_forward r query (Arg c)
                     (FlashInferMetadata.logits_soft_cap attn_metadata) true)
            end
        end
    | None =>
        decode_meta <- lift (FlashInferMetadata.decode_metadata attn_metadata) ;;
        assert (FlashInferMetadata.is_not_None decode_meta) None ;;
        match decode_meta with
        | None => raise AttributeError
        | Some decode_meta =>
            assert (FlashInferMetadata.is_not_None
                      (FlashInferMetadata.decode_wrapper decode_meta)) None ;;
            match FlashInferMetadata.decode_wrapper decode_meta with
            | None => raise AttributeError
            | Some r =>
                wrapper_forward r
                  (decode_wrapper_forward r query (option_map Arg kv_cache)
                     (scale self)
                     (FlashInferMetadata.logits_soft_cap attn_metadata))
            end
        end
    end ;;
  do_call (view output [num_tokens; hidden_size]).

End FlashInferImpl.

(** ** Sample objects *)

Definition host_tensor (i : positive) (xs : list Z) : Torch.tensor :=
  Torch.Tensor i Torch.cpu xs.

Definition gpu : Torch.device := Torch.cuda 0.

(** The decode-only batch of two requests: pages [2,5] with last-page fill 3
    and page [7] with last-page fill 9. *)
Definition decode_batch (capture : bool) : FlashInferMetadata.t :=
  FlashInferMetadata.Build 0 0 2 (host_tensor 1 [35; 121])
    0 capture (Some 1%positive) (Some 2%positive) None None None
    (Some (host_tensor 2 [0; 2; 3])) (Some (host_tensor 3 [2; 5; 7]))
    (Some (host_tensor 4 [3; 9]))
    (Some 32) (Some 8) (Some 128) (Some 16) (Some Torch.float16) gpu None.

(** A prefill batch of one request of five tokens with its page table. *)
Definition prefill_batch (capture : bool) : FlashInferMetadata.t :=
  FlashInferMetadata.Build 1 5 0 (host_tensor 1 [0; 1; 2; 3; 4])
    5 capture (Some 1%positive) (Some 2%positive)
    (Some (host_tensor 5 [0; 5])) (Some (host_tensor 6 [0; 5])) None
    (Some (host_tensor 2 [0; 1])) (Some (host_tensor 3 [0]))
    (Some (host_tensor 4 [5]))
    (Some 32) (Some 8) (Some 128) (Some 16) (Some Torch.float16) gpu None.

(** The profiling pass: a prefill batch with no page table. *)
Definition profiling_batch : FlashInferMetadata.t :=
  FlashInferMetadata.Build 1 5 0 (host_tensor 1 [0; 1; 2; 3; 4])
    5 false (Some 1%positive) (Some 2%positive)
    (Some (host_tensor 5 [0; 5])) (Some (host_tensor 6 [0; 5])) None
    None None None
    (Some 32) (Some 8) (Some 128) (Some 16) (Some Torch.float16) gpu None.

Definition world0 : world := World ∅ 10 [].

Definition impl0 : FlashInferImpl.t :=
  FlashInferImpl.Build 32 128 1 8 None (-1, -1) "auto" 4.

Definition q0 : Torch.tensor := Torch.Tensor 7 gpu [].
Definition k0 : Torch.tensor := Torch.Tensor 8 gpu [].
Definition v0 : Torch.tensor := Torch.Tensor 9 gpu [].
Definition cache0 : Torch.tensor := Torch.Tensor 6 gpu [].

(** A batch that mixes prefill and decode tokens. *)
Definition mixed_batch : FlashInferMetadata.t :=
  FlashInferMetadata.Build 1 5 2 (host_tensor 1 [0; 1; 2; 3; 4; 35; 121])
    5 false (Some 1%positive) (Some 2%positive)
    (Some (host_tensor 5 [0; 5])) (Some (host_tensor 6 [0; 5])) None
    (Some (host_tensor 2 [0; 1; 3; 4])) (Some (host_tensor 3 [0; 2; 5; 7]))
    (Some (host_tensor 4 [5; 3; 9]))
    (Some 32) (Some 8) (Some 128) (Some 16) (Some Torch.float16) gpu None.


(** A batch with no request at all. *)
Definition empty_batch : FlashInferMetadata.t :=
  FlashInferMetadata.Build 0 0 0 (host_tensor 1 [])
    0 false (Some 1%positive) (Some 2%positive) None None None
    None None None
    (Some 32) (Some 8) (Some 128) (Some 16) (Some Torch.float16) gpu None.

(** Metadata that counts one prefill request and no token. *)
Definition tokenless_prefill_batch : FlashInferMetadata.t :=
  FlashInferMetadata.Build 1 0 0 (host_tensor 1 [])
    0 false (Some 1%positive) (Some 2%positive)
    (Some (host_tensor 5 [0; 0])) (Some (host_tensor 6 [0; 0])) None
    None None None
    (Some 32) (Some 8) (Some 128) (Some 16) (Some Torch.float16) gpu None.

(** Metadata that counts five prefill tokens and no prefill request. *)
Definition requestless_prefill_batch : FlashInferMetadata.t :=
  FlashInferMetadata.Build 0 5 0 (host_tensor 1 [0; 1; 2; 3; 4])
    5 false (Some 1%positive) (Some 2%positive)
    (Some (host_tensor 5 [0; 5])) (Some (host_tensor 6 [0; 5])) None
    (Some (host_tensor 2 [0; 1])) (Some (host_tensor 3 [0]))
    (Some (host_tensor 4 [5]))
    (Some 32) (Some 8) (Some 128) (Some 16) (Some Torch.float16) gpu None.

(** The decode batch under capture, its page index already on the device. *)
Definition captured_decode_batch : FlashInferMetadata.t :=
  FlashInferMetadata.Build 0 0 2 (host_tensor 1 [35; 121])
    0 true (Some 1%positive) (Some 2%positive) None None None
    (Some (Torch.Tensor 2 gpu [0; 2; 3])) (Some (Torch.Tensor 3 gpu [2; 5; 7]))
    (Some (Torch.Tensor 4 gpu [3; 9]))
    (Some 32) (Some 8) (Some 128) (Some 16) (Some Torch.float16) gpu None.

(** The metadata and world after [begin_forward] on the sample batches. *)
Definition decode_ready : FlashInferMetadata.t * world :=
  Eval vm_compute in (FlashInferMetadata.begin_forward (decode_batch false, world0)).2.

Definition prefill_ready : FlashInferMetadata.t * world :=
  Eval vm_compute in (FlashInferMetadata.begin_forward (prefill_batch false, world0)).2.

Definition captured_ready : FlashInferMetadata.t * world :=
  Eval vm_compute in (FlashInferMetadata.begin_forward (captured_decode_batch, world0)).2.

(** [forward] on the planned decode batch, with the cache attached. *)
Definition decode_run : res value * world :=
  Eval vm_compute in
  FlashInferImpl.forward impl0 q0 k0 v0 (Some cache0) decode_ready.1 1 1 DECODER
    decode_ready.2.

Definition prefill_run : res value * world :=
  Eval vm_compute in
  FlashInferImpl.forward impl0 q0 k0 v0 (Some cache0) prefill_ready.1 1 1 DECODER
    prefill_ready.2.

Definition profiling_run : res value * world :=
  Eval vm_compute in
  FlashInferImpl.forward impl0 q0 k0 v0 None profiling_batch 1 1 DECODER world0.

(** The same metadata with another head dimension. *)
Definition with_head_dim (d : option Z) (self : FlashInferMetadata.t)
  : FlashInferMetadata.t :=
  FlashInferMetadata.Build
    (FlashInferMetadata.num_prefills self)
    (FlashInferMetadata.num_prefill_tokens self)
    (FlashInferMetadata.num_decode_tokens self)
    (FlashInferMetadata.slot_mapping self)
    (FlashInferMetadata.max_prefill_seq_len self)
    (FlashInferMetadata.use_cuda_graph self)
    (FlashInferMetadata.prefill_wrapper self)
    (FlashInferMetadata.decode_wrapper self)
    (FlashInferMetadata.seq_start_loc self)
    (FlashInferMetadata.query_start_loc self)
    (FlashInferMetadata.block_tables self)
    (FlashInferMetadata.paged_kv_indptr self)
    (FlashInferMetadata.paged_kv_indices self)
    (FlashInferMetadata.paged_kv_last_page_len self)
    (FlashInferMetadata.num_qo_heads self)
    (FlashInferMetadata.num_kv_heads self)
    d
    (FlashInferMetadata.page_size self)
    (FlashInferMetadata.data_type self)
    (FlashInferMetadata.device self)
    (FlashInferMetadata.logits_soft_cap self).

(** ** Vocabulary of the properties *)

(** The three dispatch paths, and the kernel call that is each one. *)
Inductive path : Type := NoCacheFallback | PagedPrefill | PagedDecode.

Definition path_of_call (c : call) : option path :=
  match c with
  | flash_attn_varlen_func _ _ _ _ _ _ _ _ _ _ _ => Some NoCacheFallback
  | prefill_wrapper_forward _ _ _ _ _ => Some PagedPrefill
  | decode_wrapper_forward _ _ _ _ _ => Some PagedDecode
  | _ => None
  end.

Definition wrapper_of_call (c : call) : option positive :=
  match c with
  | prefill_wrapper_forward r _ _ _ _ => Some r
  | decode_wrapper_forward r _ _ _ _ => Some r
  | _ => None
  end.

Definition is_cache_write (c : call) : bool :=
  match c with
  | reshape_and_cache_flash _ _ _ _ _ _ => true
  | _ => false
  end.

(** The calls logged between two worlds of one run. *)
Definition new_calls (w w' : world) : list call :=
  drop (length (trace w)) (trace w').

Definition paths_taken (w w' : world) : list path :=
  omap path_of_call (new_calls w w').

Definition wrappers_invoked (w w' : world) : list positive :=
  omap wrapper_of_call (new_calls w w').

Definition cache_writes (w w' : world) : list call :=
  filter (fun c => is_cache_write c = true) (new_calls w w').

Definition log (cs : list call) (w : world) : world :=
  {| sessions := sessions w; next_id := next_id w; trace := trace w ++ cs |}.

Definition unit_scale (x : float) : Prop := PrimFloat.eqb x 1 = true.

(** The metadata carries a page index: the three arrays together. *)
Definition page_index_present (md : FlashInferMetadata.t) : Prop :=
  is_Some (FlashInferMetadata.paged_kv_indices md) /\
  is_Some (FlashInferMetadata.paged_kv_indptr md) /\
  is_Some (FlashInferMetadata.paged_kv_last_page_len md).


(** The array, when present, is held by device [d]. *)
Definition resident (d : Torch.device) (x : option Torch.tensor) : Prop :=
  forall a, x = Some a -> Torch.t_device a = d.

(** [x'] is [x] brought to device [d]: same elements, held by [d]. *)
Definition moved_to (d : Torch.device) (x x' : option Torch.tensor) : Prop :=
  exists a a', x = Some a /\ x' = Some a' /\
    Torch.t_device a' = d /\ Torch.t_data a' = Torch.t_data a.

(** What [a.to(d)] returns when [n] is the next free identity, and the next
    free identity afterwards. *)
Definition moved (d : Torch.device) (n : positive) (a : Torch.tensor) : Torch.tensor :=
  if Torch.device_eqb (Torch.t_device a) d then a
  else Torch.Tensor n d (Torch.t_data a).

Definition bump (d : Torch.device) (n : positive) (a : Torch.tensor) : positive :=
  if Torch.device_eqb (Torch.t_device a) d then n else Pos.succ n.

Definition with_next_id (n : positive) (w : world) : world :=
  {| sessions := sessions w; next_id := n; trace := trace w |}.

(** The three assignments [self.x = self.x.to(self.device)], in the order of
    the source, on metadata that has the three arrays. *)
Definition transferred (md : FlashInferMetadata.t) (w : world)
    (i p l : Torch.tensor) : FlashInferMetadata.t * world :=
  let d := FlashInferMetadata.device md in
  let n1 := bump d (next_id w) i in
  let n2 := bump d n1 p in
  (FlashInferMetadata.set_paged_kv_last_page_len (Some (moved d n2 l))
     (FlashInferMetadata.set_paged_kv_indptr (Some (moved d n1 p))
        (FlashInferMetadata.set_paged_kv_indices (Some (moved d (next_id w) i)) md)),
   with_next_id (bump d n2 l) w).

Definition prefill_plan_of (md : FlashInferMetadata.t) : Wrapper.plan :=
  Wrapper.PrefillPlan
    (FlashInferMetadata.query_start_loc md) (FlashInferMetadata.paged_kv_indptr md)
    (FlashInferMetadata.paged_kv_indices md)
    (FlashInferMetadata.paged_kv_last_page_len md)
    (FlashInferMetadata.num_qo_heads md) (FlashInferMetadata.num_kv_heads md)
    (FlashInferMetadata.head_dim md) (FlashInferMetadata.page_size md).

Definition decode_plan_of (md : FlashInferMetadata.t) : Wrapper.plan :=
  Wrapper.DecodePlan
    (FlashInferMetadata.paged_kv_indptr md) (FlashInferMetadata.paged_kv_indices md)
    (FlashInferMetadata.paged_kv_last_page_len md)
    (FlashInferMetadata.num_qo_heads md) (FlashInferMetadata.num_kv_heads md)
    (FlashInferMetadata.head_dim md) (FlashInferMetadata.page_size md)
    "NONE" (FlashInferMetadata.data_type md).

(** The runs of [begin_forward] that return. *)
Inductive begin_forward_run (md : FlashInferMetadata.t) (w : world)
  : FlashInferMetadata.t -> world -> Prop :=
| run_profiling :
    (0 < FlashInferMetadata.num_prefill_tokens md)%N ->
    FlashInferMetadata.paged_kv_indices md = None ->
    begin_forward_run md w md w
| run_prefill r i p l :
    (0 < FlashInferMetadata.num_prefill_tokens md)%N ->
    FlashInferMetadata.prefill_wrapper md = Some r ->
    FlashInferMetadata.paged_kv_indices md = Some i ->
    FlashInferMetadata.paged_kv_indptr md = Some p ->
    FlashInferMetadata.paged_kv_last_page_len md = Some l ->
    begin_forward_run md w
      (transferred md w i p l).1
      (set_session r [prefill_plan_of (transferred md w i p l).1]
         (transferred md w i p l).2)
| run_decode r i p l :
    FlashInferMetadata.num_prefill_tokens md = 0%N ->
    FlashInferMetadata.use_cuda_graph md = false ->
    FlashInferMetadata.decode_wrapper md = Some r ->
    FlashInferMetadata.paged_kv_indices md = Some i ->
    FlashInferMetadata.paged_kv_indptr md = Some p ->
    FlashInferMetadata.paged_kv_last_page_len md = Some l ->
    begin_forward_run md w
      (transferred md w i p l).1
      (set_session r [decode_plan_of (transferred md w i p l).1]
         (transferred md w i p l).2)
| run_decode_capture r :
    FlashInferMetadata.num_prefill_tokens md = 0%N ->
    FlashInferMetadata.use_cuda_graph md = true ->
    FlashInferMetadata.decode_wrapper md = Some r ->
    begin_forward_run md w md (set_session r [decode_plan_of md] w).

(** The three reshapes of [forward]. *)
Definition views (self : FlashInferImpl.t) (q k v : Torch.tensor) : list call :=
  [ view (Arg q) [Lit (-1); Lit (FlashInferImpl.num_heads self);
                  Lit (FlashInferImpl.head_size self)];
    view (Arg k) [Lit (-1); Lit (FlashInferImpl.num_kv_heads self);
                  Lit (FlashInferImpl.head_size self)];
    view (Arg v) [Lit (-1); Lit (FlashInferImpl.num_kv_heads self);
                  Lit (FlashInferImpl.head_size self)] ].

(** The calls of the cache write, when a cache is attached; [n] is the
    position of the first of the three views in the log. *)
Definition cache_write_calls (self : FlashInferImpl.t) (n : nat)
    (kv_cache : option Torch.tensor) (md : FlashInferMetadata.t) : list call :=
  match kv_cache with
  | Some c =>
      [ getitem_col (Arg c) 0; getitem_col (Arg c) 1;
        flatten (Arg (FlashInferMetadata.slot_mapping md));
        reshape_and_cache_flash (Res (n + 1)) (Res (n + 2)) (Res (n + 3))
          (Res (n + 4)) (Res (n + 5)) (FlashInferImpl.kv_cache_dtype self) ]
  | None => []
  end.

(** Everything [forward] calls before it classifies the batch. *)
Definition prelude (self : FlashInferImpl.t) (q k v : Torch.tensor)
    (kv_cache : option Torch.tensor) (md : FlashInferMetadata.t) (n : nat)
  : list call :=
  views self q k v ++ cache_write_calls self n kv_cache md ++ [contiguous (Res n)].

(** The kernel call the classification selects, with [query] the contiguous
    query and [key], [val] the reshaped key and value. *)
Definition kernel_call (self : FlashInferImpl.t) (kv_cache : option Torch.tensor)
    (md : FlashInferMetadata.t) (query key val : value) : res call :=
  match FlashInferMetadata.prefill_metadata md with
  | Raise e => Raise e
  | Ok (Some prefill_meta) =>
      match kv_cache with
      | None =>
          Ok (flash_attn_varlen_func query key val
                (FlashInferMetadata.seq_start_loc prefill_meta)
                (FlashInferMetadata.seq_start_loc prefill_meta)
                (FlashInferMetadata.max_prefill_seq_len prefill_meta)
                (FlashInferMetadata.max_prefill_seq_len prefill_meta)
                (FlashInferImpl.scale self) true
                (FlashInferImpl.sliding_window self)
                (FlashInferImpl.alibi_slopes self))
      | Some c =>
          match FlashInferMetadata.prefill_wrapper prefill_meta with
          | None => Raise (AssertionError None)
          | Some r =>
              Ok (prefill_wrapper_forward r query (Arg c)
                    (FlashInferMetadata.logits_soft_cap md) true)
          end
      end
  | Ok None =>
      match FlashInferMetadata.decode_metadata md with
      | Raise e => Raise e
      | Ok None => Raise (AssertionError None)
      | Ok (Some decode_meta) =>
          match FlashInferMetadata.decode_wrapper decode_meta with
          | None => Raise (AssertionError None)
          | Some r =>
              Ok (decode_wrapper_forward r query (option_map Arg kv_cache)
                    (FlashInferImpl.scale self)
                    (FlashInferMetadata.logits_soft_cap md))
          end
      end
  end.

(** A wrapper call runs when its wrapper holds a plan; the dense kernel has
    no wrapper. *)
Definition runnable (w : world) (c : call) : bool :=
  match wrapper_of_call c with
  | Some r => Wrapper.can_forward (session_of w r)
  | None => true
  end.

(** [forward], case by case. *)
Definition forward_outcome (self : FlashInferImpl.t) (q k v : Torch.tensor)
    (kv_cache : option Torch.tensor) (md : FlashInferMetadata.t)
    (k_scale v_scale : float) (attn_type : AttentionType) (w : world)
  : res value * world :=
  if negb (PrimFloat.eqb k_scale 1 && PrimFloat.eqb v_scale 1) then
    (Raise (AssertionError (Some FlashInferImpl.k_scale_msg)), w)
  else if negb (AttentionType_eqb attn_type DECODER) then
    (Raise NotImplementedError, w)
  else if (0 <? FlashInferMetadata.num_prefill_tokens md)%N
          && (0 <? FlashInferMetadata.num_decode_tokens md)%N then
    (Raise (AssertionError (Some FlashInferImpl.chunked_prefill_msg)),
     log (views self q k v) w)
  else
    let n := length (trace w) in
    let calls := prelude self q k v kv_cache md n in
    let m := (n + length calls)%nat in
    match kernel_call self kv_cache md (Res (m - 1)) (Res (n + 1)) (Res (n + 2)) with
    | Raise e => (Raise e, log calls w)
    | Ok c =>
        if runnable w c then
          (Ok (Res (m + 1)),
           log (calls ++ [c; view (Res m) [Size (Arg q) 0; Size (Arg q) 1]]) w)
        else (Raise RuntimeError, log calls w)
    end.

(** What [begin_forward] needs in order to return: on a prefill batch, no
    page index at all or the prefill wrapper with the whole page index; on a
    decode batch, the decode wrapper and, outside graph capture, the whole
    page index. *)
Definition begin_forward_ready (md : FlashInferMetadata.t) : Prop :=
  if (0 <? FlashInferMetadata.num_prefill_tokens md)%N then
    FlashInferMetadata.paged_kv_indices md = None \/
    (is_Some (FlashInferMetadata.prefill_wrapper md) /\ page_index_present md)
  else
    is_Some (FlashInferMetadata.decode_wrapper md) /\
    (FlashInferMetadata.use_cuda_graph md = true \/ page_index_present md).

(** The wrapper of the batch's phase: the one [begin_forward] plans. *)
Definition phase_wrapper (md : FlashInferMetadata.t) : option positive :=
  if (0 <? FlashInferMetadata.num_prefill_tokens md)%N
  then FlashInferMetadata.prefill_wrapper md
  else FlashInferMetadata.decode_wrapper md.

(** The query a kernel call is given. *)
Definition query_of_call (c : call) : option value :=
  match c with
  | flash_attn_varlen_func q _ _ _ _ _ _ _ _ _ _ => Some q
  | prefill_wrapper_forward _ q _ _ _ => Some q
  | decode_wrapper_forward _ q _ _ _ => Some q
  | _ => None
  end.

(** The decode batch outside capture with no decode wrapper. *)
Definition decode_batch_no_wrapper : FlashInferMetadata.t :=
  FlashInferMetadata.Build 0 0 2 (host_tensor 1 [35; 121])
    0 false (Some 1%positive) None None None None
    (Some (host_tensor 2 [0; 2; 3])) (Some (host_tensor 3 [2; 5; 7]))
    (Some (host_tensor 4 [3; 9]))
    (Some 32) (Some 8) (Some 128) (Some 16) (Some Torch.float16) gpu None.

(** What [forward] needs, beyond unit scales and the decoder attention
    type, in order to return: a prefill-classified batch (no decode token,
    some prefill request) with no cache, or with a cache and a planned
    prefill wrapper; or a decode batch (decode tokens, no prefill token or
    request) with a planned decode wrapper. *)
Definition forward_ready (kv_cache : option Torch.tensor)
    (md : FlashInferMetadata.t) (w : world) : Prop :=
  (FlashInferMetadata.num_decode_tokens md = 0%N /\
   (0 < FlashInferMetadata.num_prefills md)%N /\
   (kv_cache = None \/
    exists r, FlashInferMetadata.prefill_wrapper md = Some r /\
              session_of w r <> [])) \/
  ((0 < FlashInferMetadata.num_decode_tokens md)%N /\
   FlashInferMetadata.num_prefill_tokens md = 0%N /\
   FlashInferMetadata.num_prefills md = 0%N /\
   exists r, FlashInferMetadata.decode_wrapper md = Some r /\
             session_of w r <> []).

(** The head dimension a plan was made with. *)
Definition plan_head_dim (p : Wrapper.plan) : option Z :=
  match p with
  | Wrapper.PrefillPlan _ _ _ _ _ _ head_dim _ => head_dim
  | Wrapper.DecodePlan _ _ _ _ _ head_dim _ _ _ => head_dim
  end.

(** ** Properties *)

(** *** Construction of the metadata *)

Lemma supported_head_size (d : Z) :
  d ∈ FlashInferBackend.get_supported_head_sizes <-> d = 64 \/ d = 128 \/ d = 256.
Proof.
  unfold FlashInferBackend.get_supported_head_sizes.
  rewrite !elem_of_cons, elem_of_nil. tauto.
Qed.

Lemma post_init_supported (self : FlashInferMetadata.t) (d : Z) :
  FlashInferMetadata.head_dim self = Some d ->
  FlashInferMetadata.__post_init__ self =
    if bool_decide (d = 64 \/ d = 128 \/ d = 256) then Ok tt else Raise ValueError.
Proof.
  intros Hd. unfold FlashInferMetadata.__post_init__. rewrite Hd.
  rewrite (bool_decide_ext _ _ (supported_head_size d)).
  by destruct (bool_decide _).
Qed.

(** C3: for every head dimension outside 64, 128 and 256, whatever the other
    fields hold, constructing the metadata raises [ValueError] (the
    configuration error); and a construction that succeeds returns the fields
    as given, with a head dimension, when it has one, among the three. *)
Theorem new_rejects_unsupported_head_dim (fields : FlashInferMetadata.t) :
  (forall d : Z,
     FlashInferMetadata.head_dim fields = Some d ->
     d <> 64 -> d <> 128 -> d <> 256 ->
     FlashInferMetadata.new fields = Raise ValueError) /\
  (forall md : FlashInferMetadata.t,
     FlashInferMetadata.new fields = Ok md ->
     md = fields /\
     forall d : Z, FlashInferMetadata.head_dim md = Some d ->
       d = 64 \/ d = 128 \/ d = 256).
Proof.
  split.
  - intros d Hd H1 H2 H3. unfold FlashInferMetadata.new.
    rewrite (post_init_supported _ d Hd).
    rewrite bool_decide_eq_false_2; [done | lia].
  - intros md Hnew. unfold FlashInferMetadata.new in Hnew.
    destruct (FlashInferMetadata.__post_init__ fields) eqn:Hpost; [| done].
    injection Hnew as <-. split; [done |]. intros d Hd.
    rewrite (post_init_supported _ d Hd) in Hpost.
    destruct (decide (d = 64 \/ d = 128 \/ d = 256)) as [Hin | Hout]; [done |].
    by rewrite bool_decide_eq_false_2 in Hpost.
Qed.

Lemma new_rejects_unsupported_head_dim_witness :
  FlashInferMetadata.new (with_head_dim (Some 96) (decode_batch false)) = Raise ValueError /\
  (FlashInferMetadata.new (decode_batch false) = Ok (decode_batch false) /\
   (128 = 64 \/ 128 = 128 \/ 128 = 256)).
Proof.
  split.
  - apply (proj1 (new_rejects_unsupported_head_dim
                    (with_head_dim (Some 96) (decode_batch false))) 96);
      [reflexivity | lia | lia | lia].
  - split; [reflexivity |].
    apply (proj2 (new_rejects_unsupported_head_dim (decode_batch false))
             (decode_batch false) eq_refl); reflexivity.
Defined.

Example new_accepts_absent_head_dim :
  FlashInferMetadata.new (with_head_dim None (decode_batch false))
  = Ok (with_head_dim None (decode_batch false)).
Proof. reflexivity. Qed.

(** *** Broadcast of the metadata *)

Lemma base_asdict_zerocopy_skips (self : FlashInferMetadata.t)
    (skip_fields : gset string) (k : string) :
  k ∈ skip_fields ->
  FlashInferMetadata.base_asdict_zerocopy self skip_fields !! k = None.
Proof.
  intros Hk. unfold FlashInferMetadata.base_asdict_zerocopy.
  apply not_elem_of_list_to_map_1. intros Hin.
  apply list_elem_of_fmap in Hin as [[k' v] [-> Hkv]].
  apply list_elem_of_filter in Hkv as [Hskip _]. by apply Hskip.
Qed.

Section Broadcast_excludes_sessions.

Variable super_asdict_zerocopy :
  FlashInferMetadata.t -> gset string -> gmap string pyval.

(** What the override relies on: the base method leaves out the fields it
    is told to skip. *)
Hypothesis super_skips : forall self (skip_fields : gset string) (k : string),
  k ∈ skip_fields -> super_asdict_zerocopy self skip_fields !! k = None.

(** C9: for every metadata instance and every [skip_fields] argument, [None]
    included, the dictionary produced for broadcast has no entry for
    [prefill_wrapper] and none for [decode_wrapper]; the caller's set comes
    back with both names added. *)
Theorem asdict_zerocopy_excludes_wrappers (self : FlashInferMetadata.t)
    (skip_fields : option (gset string)) :
  (FlashInferMetadata.asdict_zerocopy super_asdict_zerocopy self skip_fields).1
    !! "prefill_wrapper" = None /\
  (FlashInferMetadata.asdict_zerocopy super_asdict_zerocopy self skip_fields).1
    !! "decode_wrapper" = None /\
  (FlashInferMetadata.asdict_zerocopy super_asdict_zerocopy self skip_fields).2
    = default ∅ skip_fields ∪ {["prefill_wrapper"]} ∪ {["decode_wrapper"]}.
Proof.
  unfold FlashInferMetadata.asdict_zerocopy. simpl.
  split; [| split; [| done]]; apply super_skips; set_solver.
Qed.

End Broadcast_excludes_sessions.

Lemma asdict_zerocopy_excludes_wrappers_witness :
  (FlashInferMetadata.asdict_zerocopy FlashInferMetadata.base_asdict_zerocopy
     (decode_batch false) None).1 !! "prefill_wrapper" = None /\
  (FlashInferMetadata.asdict_zerocopy FlashInferMetadata.base_asdict_zerocopy
     (decode_batch false) None).1 !! "decode_wrapper" = None /\
  (FlashInferMetadata.asdict_zerocopy FlashInferMetadata.base_asdict_zerocopy
     (decode_batch false) None).2
    = default ∅ None ∪ {["prefill_wrapper"]} ∪ {["decode_wrapper"]}.
Proof.
  exact (asdict_zerocopy_excludes_wrappers FlashInferMetadata.base_asdict_zerocopy
           base_asdict_zerocopy_skips (decode_batch false) None).
Defined.

(** The wrappers are fields of the dataclass, and the other fields are sent:
    the exclusion is the override's doing. *)
Example base_asdict_zerocopy_has_wrappers :
  FlashInferMetadata.base_asdict_zerocopy (decode_batch false) ∅
    !! "decode_wrapper" = Some (PyObject 2) /\
  (FlashInferMetadata.asdict_zerocopy FlashInferMetadata.base_asdict_zerocopy
     (decode_batch false) None).1 !! "head_dim" = Some (PyInt 128) /\
  size (FlashInferMetadata.base_asdict_zerocopy (decode_batch false) ∅) = 21%nat /\
  size (FlashInferMetadata.asdict_zerocopy FlashInferMetadata.base_asdict_zerocopy
          (decode_batch false) (Some {["block_tables"]})).1 = 18%nat.
Proof. vm_compute. done. Qed.

(** *** Construction of the implementation, and the argument checks of forward *)

Ltac run :=
  unfold bind, assert, ret, raise, lift, get, modify, do_call; simpl.

Lemma AttentionType_eqb_eq (a b : AttentionType) :
  AttentionType_eqb a b = true <-> a = b.
Proof. destruct a, b; simpl; split; congruence. Qed.

Lemma forward_non_unit_scale (self : FlashInferImpl.t)
    (query key val : Torch.tensor) (kv_cache : option Torch.tensor)
    (attn_metadata : FlashInferMetadata.t) (k_scale v_scale : float)
    (attn_type : AttentionType) (w : world) :
  PrimFloat.eqb k_scale 1 && PrimFloat.eqb v_scale 1 = false ->
  FlashInferImpl.forward self query key val kv_cache attn_metadata
    k_scale v_scale attn_type w
  = (Raise (AssertionError (Some FlashInferImpl.k_scale_msg)), w).
Proof.
  intros Hs. unfold FlashInferImpl.forward. run. by rewrite Hs.
Qed.

Lemma forward_non_decoder (self : FlashInferImpl.t)
    (query key val : Torch.tensor) (kv_cache : option Torch.tensor)
    (attn_metadata : FlashInferMetadata.t) (k_scale v_scale : float)
    (attn_type : AttentionType) (w : world) :
  unit_scale k_scale -> unit_scale v_scale -> attn_type <> DECODER ->
  FlashInferImpl.forward self query key val kv_cache attn_metadata
    k_scale v_scale attn_type w
  = (Raise NotImplementedError, w).
Proof.
  unfold unit_scale. intros Hk Hv Ht. unfold FlashInferImpl.forward. run.
  rewrite Hk, Hv. simpl.
  destruct (AttentionType_eqb attn_type DECODER) eqn:E; [| done].
  by apply AttentionType_eqb_eq in E.
Qed.

(** C6, as the code has it: a sliding-window request is rejected by the
    constructor with [ValueError]; the constructor returns an instance for
    every configuration with no sliding window whose number of key/value
    heads is not zero and divides the number of heads; a key or value scale
    other than 1 is an argument of [forward], which rejects it when called,
    by its first assertion and with the world untouched. *)
Theorem init_rejects_sliding_window_forward_rejects_scale :
  (forall num_heads head_size scale num_kv_heads alibi_slopes window
          kv_cache_dtype blocksparse_params,
     FlashInferImpl.__init__ num_heads head_size scale num_kv_heads alibi_slopes
       (Some window) kv_cache_dtype blocksparse_params = Raise ValueError) /\
  (forall num_heads head_size scale num_kv_heads alibi_slopes
          kv_cache_dtype blocksparse_params,
     num_kv_heads <> 0 -> num_heads mod num_kv_heads = 0 ->
     FlashInferImpl.__init__ num_heads head_size scale num_kv_heads alibi_slopes
       None kv_cache_dtype blocksparse_params
     = Ok (FlashInferImpl.Build num_heads head_size scale num_kv_heads
             (option_map Torch.tensor_float32 alibi_slopes)
             (-1, -1) kv_cache_dtype (num_heads / num_kv_heads))) /\
  (forall self query key val kv_cache attn_metadata k_scale v_scale attn_type w,
     ~ (unit_scale k_scale /\ unit_scale v_scale) ->
     FlashInferImpl.forward self query key val kv_cache attn_metadata
       k_scale v_scale attn_type w
     = (Raise (AssertionError (Some FlashInferImpl.k_scale_msg)), w)).
Proof.
  split; [| split].
  - done.
  - intros nh hs sc nkv al dt bp Hnz Hdiv. unfold FlashInferImpl.__init__.
    destruct (Z.eqb_spec nkv 0) as [-> | _]; [done |].
    rewrite Hdiv. done.
  - intros self q k v c md ks vs ty w Hs. apply forward_non_unit_scale.
    unfold unit_scale in Hs.
    destruct (PrimFloat.eqb ks 1), (PrimFloat.eqb vs 1); simpl; try done.
    exfalso. by apply Hs.
Qed.

Lemma init_rejects_sliding_window_forward_rejects_scale_witness :
  FlashInferImpl.__init__ 32 128 1 8 None (Some 4096) "auto" None = Raise ValueError /\
  FlashInferImpl.__init__ 32 128 1 8 None None "auto" None = Ok impl0 /\
  FlashInferImpl.forward impl0 q0 k0 v0 (Some cache0) (decode_batch false)
    2 1 DECODER world0
  = (Raise (AssertionError (Some FlashInferImpl.k_scale_msg)), world0).
Proof.
  pose proof init_rejects_sliding_window_forward_rejects_scale as [H1 [H2 H3]].
  split; [apply H1 | split].
  - apply (H2 32 128 1%float 8 None "auto" None); [lia | reflexivity].
  - apply H3. unfold unit_scale. intros [H _]. vm_compute in H. discriminate H.
Defined.

(** The claim of C6 fails on the scale: the constructor has no scale to look
    at and returns the instance; the request with key scale 2 is turned down
    only by the call, with an [AssertionError]. *)
Lemma kv_scale_rejected_at_call_time :
  FlashInferImpl.__init__ 32 128 1 8 None None "auto" None = Ok impl0 /\
  FlashInferImpl.forward impl0 q0 k0 v0 (Some cache0) (decode_batch false)
    2 1 DECODER world0
  = (Raise (AssertionError (Some FlashInferImpl.k_scale_msg)), world0).
Proof. split; reflexivity. Qed.

(** The constructor's own assertion and division. *)
Example init_heads_not_divisible :
  FlashInferImpl.__init__ 32 128 1 5 None None "auto" None = Raise (AssertionError None) /\
  FlashInferImpl.__init__ 32 128 1 0 None None "auto" None = Raise ZeroDivisionError.
Proof. split; reflexivity. Qed.

(** C7, as the code has it: a call with unit key and value scales whose
    attention type is not [DECODER] raises [NotImplementedError] whatever
    the other arguments and the metadata hold, and the world is as before:
    nothing was reshaped, written to the cache or run. *)
Theorem forward_rejects_non_decoder (self : FlashInferImpl.t)
    (query key val : Torch.tensor) (kv_cache : option Torch.tensor)
    (attn_metadata : FlashInferMetadata.t) (k_scale v_scale : float)
    (attn_type : AttentionType) (w : world) :
  unit_scale k_scale -> unit_scale v_scale ->
  attn_type = ENCODER \/ attn_type = ENCODER_DECODER ->
  FlashInferImpl.forward self query key val kv_cache attn_metadata
    k_scale v_scale attn_type w
  = (Raise NotImplementedError, w).
Proof.
  intros Hk Hv Ht. apply forward_non_decoder; [done | done |].
  destruct Ht as [-> | ->]; discriminate.
Qed.

Lemma forward_rejects_non_decoder_witness :
  FlashInferImpl.forward impl0 q0 k0 v0 (Some cache0) (decode_batch false)
    1 1 ENCODER_DECODER world0
  = (Raise NotImplementedError, world0).
Proof.
  apply forward_rejects_non_decoder; [reflexivity | reflexivity | by right].
Defined.

(** The claim of C7 fails on the scale arguments: with key scale 2 an encoder
    call is turned down by the scale assertion, which comes first. *)
Lemma encoder_call_with_scale_raises_assertion :
  FlashInferImpl.forward impl0 q0 k0 v0 (Some cache0) (decode_batch false)
    2 1 ENCODER world0
  = (Raise (AssertionError (Some FlashInferImpl.k_scale_msg)), world0) /\
  fst (FlashInferImpl.forward impl0 q0 k0 v0 (Some cache0) (decode_batch false)
         2 1 ENCODER world0)
  <> Raise NotImplementedError.
Proof. split; [reflexivity | discriminate]. Qed.

(** *** begin_forward *)



Lemma device_eqb_eq (a b : Torch.device) :
  Torch.device_eqb a b = true <-> a = b.
Proof.
  destruct a as [| i], b as [| j]; simpl; try (split; congruence).
  rewrite N.eqb_eq. split; congruence.
Qed.

Lemma device_eqb_refl (a : Torch.device) : Torch.device_eqb a a = true.
Proof. by apply device_eqb_eq. Qed.

Lemma moved_device d n a : Torch.t_device (moved d n a) = d.
Proof.
  unfold moved. destruct (Torch.device_eqb _ _) eqn:E; [| done].
  by apply device_eqb_eq.
Qed.

Lemma moved_data d n a : Torch.t_data (moved d n a) = Torch.t_data a.
Proof. unfold moved. by destruct (Torch.device_eqb _ _). Qed.

Lemma moved_resident d n a : Torch.t_device a = d -> moved d n a = a.
Proof. intros <-. unfold moved. by rewrite device_eqb_refl. Qed.

Lemma bump_resident d n a : Torch.t_device a = d -> bump d n a = n.
Proof. intros <-. unfold bump. by rewrite device_eqb_refl. Qed.

Lemma with_next_id_same w : with_next_id (next_id w) w = w.
Proof. by destruct w. Qed.

Lemma field_to_device_run (f : FlashInferMetadata.t -> option Torch.tensor)
    (set_f : option Torch.tensor -> FlashInferMetadata.t -> FlashInferMetadata.t)
    (md : FlashInferMetadata.t) (w : world) (a : Torch.tensor) :
  f md = Some a ->
  FlashInferMetadata.field_to_device f set_f (md, w)
  = (Ok tt,
     (set_f (Some (moved (FlashInferMetadata.device md) (next_id w) a)) md,
      with_next_id (bump (FlashInferMetadata.device md) (next_id w) a) w)).
Proof.
  intros Hf. unfold FlashInferMetadata.field_to_device, FlashInferMetadata.self_get,
    FlashInferMetadata.self_set, FlashInferMetadata.in_world, tensor_to, moved, bump.
  run. rewrite Hf. destruct w as [ss n tr]. simpl.
  by destruct (Torch.device_eqb _ _).
Qed.

Lemma transferred_run (md : FlashInferMetadata.t) (w : world) (i p l : Torch.tensor)
    {A} (k : M (FlashInferMetadata.t * world) A) :
  FlashInferMetadata.paged_kv_indices md = Some i ->
  FlashInferMetadata.paged_kv_indptr md = Some p ->
  FlashInferMetadata.paged_kv_last_page_len md = Some l ->
  bind (FlashInferMetadata.field_to_device FlashInferMetadata.paged_kv_indices
          FlashInferMetadata.set_paged_kv_indices)
    (fun _ =>
       bind (FlashInferMetadata.field_to_device FlashInferMetadata.paged_kv_indptr
               FlashInferMetadata.set_paged_kv_indptr)
         (fun _ =>
            bind (FlashInferMetadata.field_to_device
                    FlashInferMetadata.paged_kv_last_page_len
                    FlashInferMetadata.set_paged_kv_last_page_len)
              (fun _ => k))) (md, w)
  = k (transferred md w i p l).
Proof.
  intros Hi Hp Hl. unfold bind at 1.
  rewrite (field_to_device_run _ _ md w i Hi).
  unfold bind at 1. erewrite field_to_device_run; [| exact Hp].
  unfold bind at 1. erewrite field_to_device_run; [| exact Hl].
  reflexivity.
Qed.

Lemma transferred_run_last (md : FlashInferMetadata.t) (w : world)
    (i p l : Torch.tensor) :
  FlashInferMetadata.paged_kv_indices md = Some i ->
  FlashInferMetadata.paged_kv_indptr md = Some p ->
  FlashInferMetadata.paged_kv_last_page_len md = Some l ->
  bind (FlashInferMetadata.field_to_device FlashInferMetadata.paged_kv_indices
          FlashInferMetadata.set_paged_kv_indices)
    (fun _ =>
       bind (FlashInferMetadata.field_to_device FlashInferMetadata.paged_kv_indptr
               FlashInferMetadata.set_paged_kv_indptr)
         (fun _ =>
            FlashInferMetadata.field_to_device
              FlashInferMetadata.paged_kv_last_page_len
              FlashInferMetadata.set_paged_kv_last_page_len)) (md, w)
  = (Ok tt, transferred md w i p l).
Proof.
  intros Hi Hp Hl. unfold bind at 1.
  rewrite (field_to_device_run _ _ md w i Hi).
  unfold bind at 1. erewrite field_to_device_run; [| exact Hp].
  erewrite field_to_device_run; [| exact Hl].
  reflexivity.
Qed.

Lemma bind_self_get {A B} (f : FlashInferMetadata.t -> A)
    (k : A -> M (FlashInferMetadata.t * world) B) md w :
  bind (FlashInferMetadata.self_get f) k (md, w) = k (f md) (md, w).
Proof. reflexivity. Qed.

Lemma bind_assert {S B} (c : bool) msg (k : unit -> M S B) (s : S) :
  bind (assert c msg) k s = if c then k tt s else (Raise (AssertionError msg), s).
Proof. by destruct c. Qed.

Lemma session_of_set_session (r : positive) (s : Wrapper.session) (w : world) :
  session_of (set_session r s w) r = s.
Proof. unfold session_of, set_session. simpl. by rewrite lookup_insert_eq. Qed.

Lemma session_of_set_session_ne (r r' : positive) (s : Wrapper.session) (w : world) :
  r <> r' -> session_of (set_session r s w) r' = session_of w r'.
Proof.
  intros Hne. unfold session_of, set_session. simpl. by rewrite lookup_insert_ne.
Qed.

Lemma set_session_twice (r : positive) (s s' : Wrapper.session) (w : world) :
  set_session r s' (set_session r s w) = set_session r s' w.
Proof. unfold set_session. simpl. by rewrite insert_insert_eq. Qed.

(** [end_forward] then [begin_forward] on wrapper [r]: whatever [r] held, it
    holds the new plan and nothing else. *)
Lemma replan_run (r : positive) (plan_of : FlashInferMetadata.t -> Wrapper.plan)
    (md : FlashInferMetadata.t) (w : world) :
  bind (FlashInferMetadata.wrapper_end_forward r)
    (fun _ => bind (FlashInferMetadata.self_get id)
                (fun self => FlashInferMetadata.wrapper_begin_forward r (plan_of self)))
    (md, w)
  = (Ok tt, (md, set_session r [plan_of md] w)).
Proof.
  unfold FlashInferMetadata.wrapper_end_forward,
    FlashInferMetadata.wrapper_begin_forward, FlashInferMetadata.in_world,
    FlashInferMetadata.self_get, Wrapper.end_forward, Wrapper.begin_forward.
  run. by rewrite session_of_set_session, set_session_twice.
Qed.

Local Arguments transferred : simpl never.
Local Arguments set_session : simpl never.

Lemma transferred_wrappers md w i p l :
  FlashInferMetadata.decode_wrapper (transferred md w i p l).1
  = FlashInferMetadata.decode_wrapper md.
Proof. reflexivity. Qed.

Lemma begin_forward_sound (md md' : FlashInferMetadata.t) (w w' : world) :
  begin_forward_run md w md' w' ->
  FlashInferMetadata.begin_forward (md, w) = (Ok tt, (md', w')).
Proof.
  intros Hrun. unfold FlashInferMetadata.begin_forward.
  rewrite bind_self_get.
  destruct Hrun as [Hpos Hi | r i p l Hpos Hr Hi Hp Hl | r i p l Hz Hcg Hr Hi Hp Hl
                    | r Hz Hcg Hr].
  - apply N.ltb_lt in Hpos. rewrite Hpos, bind_self_get, Hi. reflexivity.
  - pose proof (fun k => transferred_run md w i p l (A:=unit) k Hi Hp Hl) as Hmove.
    remember (transferred md w i p l) as mw eqn:Hmw. destruct mw as [md1 w1].
    apply N.ltb_lt in Hpos. rewrite Hpos, bind_self_get, Hi.
    rewrite bind_self_get, Hr, bind_assert. simpl.
    rewrite bind_self_get, Hi, bind_assert. simpl.
    rewrite bind_self_get, Hp, bind_assert. simpl.
    rewrite bind_self_get, Hl, bind_assert. simpl.
    rewrite Hmove.
    apply (replan_run r prefill_plan_of).
  - pose proof (transferred_run_last md w i p l Hi Hp Hl) as Hmove.
    pose proof (transferred_wrappers md w i p l) as Hr1. rewrite Hr in Hr1.
    remember (transferred md w i p l) as mw eqn:Hmw. destruct mw as [md1 w1].
    simpl in Hr1.
    rewrite Hz. simpl. rewrite bind_self_get, Hcg. simpl.
    unfold bind at 1.
    rewrite bind_self_get, Hi, bind_assert. simpl.
    rewrite bind_self_get, Hp, bind_assert. simpl.
    rewrite bind_self_get, Hl, bind_assert. simpl.
    rewrite Hmove.
    rewrite bind_self_get, Hr1, bind_assert. simpl.
    apply (replan_run r decode_plan_of).
  - rewrite Hz. simpl. rewrite bind_self_get, Hcg. simpl.
    unfold bind at 1. simpl.
    rewrite bind_self_get, Hr, bind_assert. simpl.
    apply (replan_run r decode_plan_of).
Qed.

Lemma begin_forward_complete (md md' : FlashInferMetadata.t) (w w' : world) :
  FlashInferMetadata.begin_forward (md, w) = (Ok tt, (md', w')) ->
  begin_forward_run md w md' w'.
Proof.
  intros Hrun.
  assert (forall md2 w2, begin_forward_run md w md2 w2 ->
                         begin_forward_run md w md' w') as Hdet.
  { intros md2 w2 H2. pose proof (begin_forward_sound _ _ _ _ H2) as Hs.
    rewrite Hs in Hrun. by simplify_eq. }
  destruct (N.ltb_spec 0 (FlashInferMetadata.num_prefill_tokens md)) as [Hpos | Hz].
  - destruct (FlashInferMetadata.paged_kv_indices md) as [i |] eqn:Hi;
      [| by apply (Hdet md w), run_profiling].
    destruct (FlashInferMetadata.prefill_wrapper md) as [r |] eqn:Hr;
      [destruct (FlashInferMetadata.paged_kv_indptr md) as [p |] eqn:Hp;
       [destruct (FlashInferMetadata.paged_kv_last_page_len md) as [l |] eqn:Hl |] |].
    + eapply Hdet, (run_prefill md w r i p l); done.
    + exfalso. apply N.ltb_lt in Hpos.
      unfold FlashInferMetadata.begin_forward in Hrun.
      rewrite bind_self_get, Hpos, bind_self_get, Hi in Hrun.
      rewrite bind_self_get, Hr, bind_assert in Hrun. simpl in Hrun.
      rewrite bind_self_get, Hi, bind_assert in Hrun. simpl in Hrun.
      rewrite bind_self_get, Hp, bind_assert in Hrun. simpl in Hrun.
      rewrite bind_self_get, Hl, bind_assert in Hrun. done.
    + exfalso. apply N.ltb_lt in Hpos.
      unfold FlashInferMetadata.begin_forward in Hrun.
      rewrite bind_self_get, Hpos, bind_self_get, Hi in Hrun.
      rewrite bind_self_get, Hr, bind_assert in Hrun. simpl in Hrun.
      rewrite bind_self_get, Hi, bind_assert in Hrun. simpl in Hrun.
      rewrite bind_self_get, Hp, bind_assert in Hrun. done.
    + exfalso. apply N.ltb_lt in Hpos.
      unfold FlashInferMetadata.begin_forward in Hrun.
      rewrite bind_self_get, Hpos, bind_self_get, Hi in Hrun.
      rewrite bind_self_get, Hr, bind_assert in Hrun. done.
  - assert (FlashInferMetadata.num_prefill_tokens md = 0%N) as Hz' by lia.
    unfold FlashInferMetadata.begin_forward in Hrun.
    rewrite bind_self_get, Hz' in Hrun. simpl in Hrun.
    rewrite bind_self_get in Hrun.
    destruct (FlashInferMetadata.use_cuda_graph md) eqn:Hcg; simpl in Hrun.
    + unfold bind at 1 in Hrun. simpl in Hrun.
      rewrite bind_self_get in Hrun.
      destruct (FlashInferMetadata.decode_wrapper md) as [r |] eqn:Hr;
        [| rewrite bind_assert in Hrun; done].
      eapply Hdet, (run_decode_capture md w r); done.
    + unfold bind at 1 in Hrun.
      rewrite bind_self_get, bind_assert in Hrun.
      destruct (FlashInferMetadata.paged_kv_indices md) as [i |] eqn:Hi; [| done].
      simpl in Hrun. rewrite bind_self_get, bind_assert in Hrun.
      destruct (FlashInferMetadata.paged_kv_indptr md) as [p |] eqn:Hp; [| done].
      simpl in Hrun. rewrite bind_self_get, bind_assert in Hrun.
      destruct (FlashInferMetadata.paged_kv_last_page_len md) as [l |] eqn:Hl; [| done].
      simpl in Hrun.
      destruct (FlashInferMetadata.decode_wrapper md) as [r |] eqn:Hr.
      * eapply Hdet, (run_decode md w r i p l); done.
      * exfalso.
        pose proof (transferred_wrappers md w i p l) as Hr1. rewrite Hr in Hr1.
        rewrite (transferred_run_last md w i p l Hi Hp Hl) in Hrun.
        destruct (transferred md w i p l) as [md1 w1]. simpl in Hr1.
        rewrite bind_self_get, Hr1, bind_assert in Hrun. done.
Qed.

Lemma set_fields_same (md : FlashInferMetadata.t) :
  FlashInferMetadata.set_paged_kv_indptr (FlashInferMetadata.paged_kv_indptr md)
    (FlashInferMetadata.set_paged_kv_indices (FlashInferMetadata.paged_kv_indices md)
       (FlashInferMetadata.set_paged_kv_last_page_len
          (FlashInferMetadata.paged_kv_last_page_len md) md)) = md.
Proof. by destruct md. Qed.

Lemma transferred_frame md w i p l :
  (transferred md w i p l).1
  = FlashInferMetadata.set_paged_kv_indptr
      (FlashInferMetadata.paged_kv_indptr (transferred md w i p l).1)
      (FlashInferMetadata.set_paged_kv_indices
         (FlashInferMetadata.paged_kv_indices (transferred md w i p l).1)
         (FlashInferMetadata.set_paged_kv_last_page_len
            (FlashInferMetadata.paged_kv_last_page_len (transferred md w i p l).1) md)).
Proof. by destruct md. Qed.

Lemma transferred_resident md w i p l :
  FlashInferMetadata.paged_kv_indices md = Some i ->
  FlashInferMetadata.paged_kv_indptr md = Some p ->
  FlashInferMetadata.paged_kv_last_page_len md = Some l ->
  Torch.t_device i = FlashInferMetadata.device md ->
  Torch.t_device p = FlashInferMetadata.device md ->
  Torch.t_device l = FlashInferMetadata.device md ->
  transferred md w i p l = (md, w).
Proof.
  intros Hi Hp Hl Di Dp Dl. unfold transferred.
  rewrite !bump_resident, !moved_resident by done.
  rewrite with_next_id_same. f_equal.
  rewrite <- Hi, <- Hp, <- Hl. by destruct md.
Qed.

(** C5: when [begin_forward] returns, the metadata differs from what it was
    at most in the three page-index arrays; outside graph capture, metadata
    that carries the page index has each array on the compute device
    afterwards, with the same elements; under graph capture, arrays that are
    resident on the device are the same tensor objects afterwards. *)
Theorem begin_forward_transfer (md md' : FlashInferMetadata.t) (w w' : world) :
  FlashInferMetadata.begin_forward (md, w) = (Ok tt, (md', w')) ->
  md' = FlashInferMetadata.set_paged_kv_indptr (FlashInferMetadata.paged_kv_indptr md')
          (FlashInferMetadata.set_paged_kv_indices (FlashInferMetadata.paged_kv_indices md')
             (FlashInferMetadata.set_paged_kv_last_page_len
                (FlashInferMetadata.paged_kv_last_page_len md') md)) /\
  (FlashInferMetadata.use_cuda_graph md = false -> page_index_present md ->
   moved_to (FlashInferMetadata.device md)
     (FlashInferMetadata.paged_kv_indices md) (FlashInferMetadata.paged_kv_indices md') /\
   moved_to (FlashInferMetadata.device md)
     (FlashInferMetadata.paged_kv_indptr md) (FlashInferMetadata.paged_kv_indptr md') /\
   moved_to (FlashInferMetadata.device md)
     (FlashInferMetadata.paged_kv_last_page_len md)
     (FlashInferMetadata.paged_kv_last_page_len md')) /\
  (FlashInferMetadata.use_cuda_graph md = true ->
   resident (FlashInferMetadata.device md) (FlashInferMetadata.paged_kv_indices md) ->
   resident (FlashInferMetadata.device md) (FlashInferMetadata.paged_kv_indptr md) ->
   resident (FlashInferMetadata.device md) (FlashInferMetadata.paged_kv_last_page_len md) ->
   FlashInferMetadata.paged_kv_indices md' = FlashInferMetadata.paged_kv_indices md /\
   FlashInferMetadata.paged_kv_indptr md' = FlashInferMetadata.paged_kv_indptr md /\
   FlashInferMetadata.paged_kv_last_page_len md' = FlashInferMetadata.paged_kv_last_page_len md).
Proof.
  intros Hrun. apply begin_forward_complete in Hrun.
  assert (forall i p l,
    FlashInferMetadata.paged_kv_indices md = Some i ->
    FlashInferMetadata.paged_kv_indptr md = Some p ->
    FlashInferMetadata.paged_kv_last_page_len md = Some l ->
    moved_to (FlashInferMetadata.device md) (FlashInferMetadata.paged_kv_indices md)
      (FlashInferMetadata.paged_kv_indices (transferred md w i p l).1) /\
    moved_to (FlashInferMetadata.device md) (FlashInferMetadata.paged_kv_indptr md)
      (FlashInferMetadata.paged_kv_indptr (transferred md w i p l).1) /\
    moved_to (FlashInferMetadata.device md) (FlashInferMetadata.paged_kv_last_page_len md)
      (FlashInferMetadata.paged_kv_last_page_len (transferred md w i p l).1)) as Hmoved.
  { intros i p l Hi Hp Hl. unfold moved_to. rewrite Hi, Hp, Hl.
    repeat split; eexists _, _; (split; [reflexivity |]);
      (split; [reflexivity |]); split; auto using moved_device, moved_data. }
  destruct Hrun as [Hpos Hi | r i p l Hpos Hr Hi Hp Hl | r i p l Hz Hcg Hr Hi Hp Hl
                    | r Hz Hcg Hr].
  - split; [by rewrite set_fields_same |]. split; [| done].
    intros _ [[i Hi'] _]. congruence.
  - split; [apply transferred_frame |]. split; [by auto |].
    intros _ Ri Rp Rl.
    rewrite (transferred_resident md w i p l) by auto. by rewrite Hi, Hp, Hl.
  - split; [apply transferred_frame |]. split; [by auto | congruence].
  - split; [by rewrite set_fields_same |]. split; [congruence | done].
Qed.

Lemma session_of_with_next_id n w r : session_of (with_next_id n w) r = session_of w r.
Proof. reflexivity. Qed.

Lemma set_session_with_next_id r s n w :
  set_session r s (with_next_id n w) = with_next_id n (set_session r s w).
Proof. reflexivity. Qed.

Lemma touched_session r s w r' :
  session_of (set_session r [s] w) r' = session_of w r' \/
  exists p, session_of (set_session r [s] w) r' = [p].
Proof.
  destruct (decide (r = r')) as [<- | Hne].
  - right. exists s. apply session_of_set_session.
  - left. by apply session_of_set_session_ne.
Qed.

Lemma touched_session_transferred r s md w i p l r' :
  session_of (set_session r [s] (transferred md w i p l).2) r' = session_of w r' \/
  exists q, session_of (set_session r [s] (transferred md w i p l).2) r' = [q].
Proof. apply (touched_session r s (transferred md w i p l).2 r'). Qed.

(** The state a returning [begin_forward] leaves is one it maps to itself. *)
Lemma begin_forward_run_again md w md2 w2 :
  begin_forward_run md w md2 w2 -> begin_forward_run md2 w2 md2 w2.
Proof.
  intros [Hpos Hi | r i p l Hpos Hr Hi Hp Hl | r i p l Hz Hcg Hr Hi Hp Hl | r Hz Hcg Hr].
  - by apply run_profiling.
  - set (d := FlashInferMetadata.device md).
    set (i' := moved d (next_id w) i).
    set (p' := moved d (bump d (next_id w) i) p).
    set (l' := moved d (bump d (bump d (next_id w) i) p) l).
    set (mdT := (transferred md w i p l).1).
    set (wT := set_session r [prefill_plan_of mdT] (transferred md w i p l).2).
    assert (transferred mdT wT i' p' l' = (mdT, wT)) as Hfix
      by (apply transferred_resident; try reflexivity; apply moved_device).
    pose proof (run_prefill mdT wT r i' p' l' Hpos Hr eq_refl eq_refl eq_refl) as Hrun.
    rewrite Hfix in Hrun. simpl in Hrun.
    replace (set_session r [prefill_plan_of mdT] wT) with wT in Hrun; [done |].
    unfold wT. by rewrite set_session_twice.
  - set (d := FlashInferMetadata.device md).
    set (i' := moved d (next_id w) i).
    set (p' := moved d (bump d (next_id w) i) p).
    set (l' := moved d (bump d (bump d (next_id w) i) p) l).
    set (mdT := (transferred md w i p l).1).
    set (wT := set_session r [decode_plan_of mdT] (transferred md w i p l).2).
    assert (transferred mdT wT i' p' l' = (mdT, wT)) as Hfix
      by (apply transferred_resident; try reflexivity; apply moved_device).
    pose proof (run_decode mdT wT r i' p' l' Hz Hcg Hr eq_refl eq_refl eq_refl) as Hrun.
    rewrite Hfix in Hrun. simpl in Hrun.
    replace (set_session r [decode_plan_of mdT] wT) with wT in Hrun; [done |].
    unfold wT. by rewrite set_session_twice.
  - pose proof (run_decode_capture md (set_session r [decode_plan_of md] w) r Hz Hcg Hr)
      as Hrun.
    by rewrite set_session_twice in Hrun.
Qed.

(** C8: when [begin_forward] has returned, calling it again on the same
    metadata and wrappers returns and changes nothing: the metadata, the
    wrappers and their plans are exactly as the first call left them.  A
    wrapper the call touched holds one plan, whatever it held before; and
    unless the call was the profiling pass, which plans nothing, the wrapper
    of the batch's phase holds exactly the plan made from the metadata. *)
Theorem begin_forward_twice (md md1 : FlashInferMetadata.t) (w w1 : world) :
  FlashInferMetadata.begin_forward (md, w) = (Ok tt, (md1, w1)) ->
  FlashInferMetadata.begin_forward (md1, w1) = (Ok tt, (md1, w1)) /\
  (forall r, session_of w1 r = session_of w r \/ exists p, session_of w1 r = [p]) /\
  (FlashInferMetadata.paged_kv_indices md <> None \/
   FlashInferMetadata.num_prefill_tokens md = 0%N ->
   exists r,
     (if (0 <? FlashInferMetadata.num_prefill_tokens md)%N
      then FlashInferMetadata.prefill_wrapper md
      else FlashInferMetadata.decode_wrapper md) = Some r /\
     session_of w1 r =
       [if (0 <? FlashInferMetadata.num_prefill_tokens md)%N
        then prefill_plan_of md1 else decode_plan_of md1]).
Proof.
  intros Hrun. apply begin_forward_complete in Hrun.
  split; [by eapply begin_forward_sound, begin_forward_run_again |].
  destruct Hrun as [Hpos Hi | r i p l Hpos Hr Hi Hp Hl | r i p l Hz Hcg Hr Hi Hp Hl
                    | r Hz Hcg Hr].
  - split; [by left |]. intros [Hne | Hz]; [done | lia].
  - split; [intros r'; apply touched_session_transferred |]. intros _. exists r.
    apply N.ltb_lt in Hpos. rewrite Hpos. split; [done |].
    apply session_of_set_session.
  - split; [intros r'; apply touched_session_transferred |]. intros _. exists r.
    rewrite Hz. simpl. split; [done |]. apply session_of_set_session.
  - split; [intros r'; apply touched_session |]. intros _. exists r.
    rewrite Hz. simpl. split; [done |]. apply session_of_set_session.
Qed.

(** *** forward *)

Lemma bind_do_call {B} (c : call) (k : value -> M world B) (w : world) :
  bind (do_call c) k w = k (Res (length (trace w))) (log [c] w).
Proof. reflexivity. Qed.

Lemma bind_ret {S A B} (a : A) (k : A -> M S B) (s : S) : bind (ret a) k s = k a s.
Proof. reflexivity. Qed.

Lemma bind_raise {S A B} (e : exn) (k : A -> M S B) (s : S) :
  bind (raise e) k s = (Raise e, s).
Proof. reflexivity. Qed.

Lemma bind_lift {S A B} (r : res A) (k : A -> M S B) (s : S) :
  bind (lift r) k s = match r with Ok a => k a s | Raise e => (Raise e, s) end.
Proof. by destruct r. Qed.

Lemma log_log (a b : list call) (w : world) : log b (log a w) = log (a ++ b) w.
Proof. unfold log. simpl. by rewrite app_assoc. Qed.

Lemma length_trace_log (cs : list call) (w : world) :
  length (trace (log cs w)) = (length (trace w) + length cs)%nat.
Proof. unfold log. simpl. apply length_app. Qed.

Lemma new_calls_log (cs : list call) (w : world) : new_calls w (log cs w) = cs.
Proof. unfold new_calls, log. simpl. apply drop_app_length. Qed.

Local Arguments log : simpl never.

Lemma session_of_log (cs : list call) (w : world) (r : positive) :
  session_of (log cs w) r = session_of w r.
Proof. reflexivity. Qed.

Lemma wrapper_forward_run {B} (r : positive) (c : call) (k : value -> M world B)
    (w : world) :
  bind (FlashInferImpl.wrapper_forward r c) k w
  = if Wrapper.can_forward (session_of w r)
    then k (Res (length (trace w))) (log [c] w)
    else (Raise RuntimeError, w).
Proof.
  unfold FlashInferImpl.wrapper_forward, bind, get. simpl.
  by destruct (Wrapper.can_forward _).
Qed.

Lemma bind_bind {S A B C} (m : M S A) (f : A -> M S B) (g : B -> M S C) (s : S) :
  bind (bind m f) g s = bind m (fun x => bind (f x) g) s.
Proof. unfold bind. by destruct (m s) as [[a | e] s']. Qed.

Lemma do_call_run (c : call) (w : world) :
  do_call c w = (Ok (Res (length (trace w))), log [c] w).
Proof. reflexivity. Qed.

Ltac forward_step :=
  first [ rewrite bind_bind | rewrite bind_ret | rewrite bind_do_call | rewrite bind_assert
        | rewrite bind_lift | rewrite wrapper_forward_run | rewrite bind_raise ];
  rewrite ?log_log, ?length_trace_log, ?session_of_log; simpl.

Lemma forward_unfold self q k v cache md ks vs ty w :
  FlashInferImpl.forward self q k v cache md ks vs ty w
  = forward_outcome self q k v cache md ks vs ty w.
Proof.
  unfold FlashInferImpl.forward, forward_outcome.
  rewrite bind_assert.
  destruct (PrimFloat.eqb ks 1 && PrimFloat.eqb vs 1); simpl; [| done].
  destruct (AttentionType_eqb ty DECODER); simpl; [| done].
  rewrite bind_ret, !bind_do_call, !log_log. simpl app.
  rewrite !length_trace_log. simpl length.
  assert (forall (B : Type) (k1 : M world B),
    (if (0 <? FlashInferMetadata.num_prefill_tokens md)%N
        && (0 <? FlashInferMetadata.num_decode_tokens md)%N
     then (Raise (AssertionError (Some FlashInferImpl.chunked_prefill_msg)),
           log (views self q k v) w)
     else k1 (log (views self q k v) w))
    = bind
        (if (0 <? FlashInferMetadata.num_prefill_tokens md)%N
         then assert (FlashInferMetadata.num_decode_tokens md =? 0)%N
                (Some FlashInferImpl.chunked_prefill_msg)
         else ret ())
        (fun _ =>
           bind
             (if (0 <? FlashInferMetadata.num_decode_tokens md)%N
              then assert (FlashInferMetadata.num_prefill_tokens md =? 0)%N
                     (Some FlashInferImpl.chunked_prefill_msg)
              else ret ())
             (fun _ => k1)) (log (views self q k v) w)) as Hshape.
  { intros B k1.
    destruct (N.ltb_spec 0 (FlashInferMetadata.num_prefill_tokens md)) as [Hp | Hp];
      destruct (N.ltb_spec 0 (FlashInferMetadata.num_decode_tokens md)) as [Hd | Hd];
      simpl.
    - rewrite bind_assert.
      destruct (N.eqb_spec (FlashInferMetadata.num_decode_tokens md) 0); [lia | done].
    - rewrite bind_assert.
      destruct (N.eqb_spec (FlashInferMetadata.num_decode_tokens md) 0); [done | lia].
    - rewrite bind_ret, bind_assert.
      destruct (N.eqb_spec (FlashInferMetadata.num_prefill_tokens md) 0); [done | lia].
    - done. }
  unfold views in Hshape. rewrite <- Hshape. clear Hshape.
  destruct (_ && _); [done |].
  unfold kernel_call, prelude, views, cache_write_calls, runnable.
  destruct cache as [c |]; simpl.
  - repeat forward_step.
    destruct (FlashInferMetadata.prefill_metadata md) as [[pm |] | e] eqn:Hpm;
      simpl; [| | done].
    + repeat forward_step.
      destruct (FlashInferMetadata.prefill_wrapper pm) as [r |]; simpl; [| done].
      repeat forward_step. destruct (Wrapper.can_forward _); [| done].
      repeat forward_step. rewrite do_call_run, log_log, length_trace_log. simpl.
      rewrite <- ?Nat.add_sub_assoc by lia. by rewrite <- ?Nat.add_assoc.
    + repeat forward_step.
      destruct (FlashInferMetadata.decode_metadata md) as [[dm |] | e]; simpl;
        [| done | done].
      repeat forward_step.
      destruct (FlashInferMetadata.decode_wrapper dm) as [r |]; simpl; [| done].
      repeat forward_step. destruct (Wrapper.can_forward _); [| done].
      repeat forward_step. rewrite do_call_run, log_log, length_trace_log. simpl.
      rewrite <- ?Nat.add_sub_assoc by lia. by rewrite <- ?Nat.add_assoc.
  - repeat forward_step.
    destruct (FlashInferMetadata.prefill_metadata md) as [[pm |] | e] eqn:Hpm;
      simpl; [| | done].
    + repeat forward_step. rewrite do_call_run, log_log, length_trace_log. simpl.
      rewrite <- ?Nat.add_sub_assoc by lia. by rewrite <- ?Nat.add_assoc.
    + repeat forward_step.
      destruct (FlashInferMetadata.decode_metadata md) as [[dm |] | e]; simpl;
        [| done | done].
      repeat forward_step.
      destruct (FlashInferMetadata.decode_wrapper dm) as [r |]; simpl; [| done].
      repeat forward_step. destruct (Wrapper.can_forward _); [| done].
      repeat forward_step. rewrite do_call_run, log_log, length_trace_log. simpl.
      rewrite <- ?Nat.add_sub_assoc by lia. by rewrite <- ?Nat.add_assoc.
Qed.

Lemma prelude_paths self q k v cache md n :
  omap path_of_call (prelude self q k v cache md n) = [] /\
  omap wrapper_of_call (prelude self q k v cache md n) = [].
Proof. by destruct cache. Qed.

Lemma views_quiet self q k v :
  omap path_of_call (views self q k v) = [] /\
  filter (fun c => is_cache_write c = true) (views self q k v) = [].
Proof. done. Qed.

(** The returning runs of [forward]: the batch is not mixed, the
    classification selects a kernel call, and the log grows by the prelude,
    that call and the final reshape. *)
Lemma forward_ok_inv self q k v cache md ks vs ty w out w' :
  FlashInferImpl.forward self q k v cache md ks vs ty w = (Ok out, w') ->
  ~ ((0 < FlashInferMetadata.num_prefill_tokens md)%N /\
     (0 < FlashInferMetadata.num_decode_tokens md)%N) /\
  exists c qv kv vv,
    kernel_call self cache md qv kv vv = Ok c /\
    runnable w c = true /\
    w' = log (prelude self q k v cache md (length (trace w))
              ++ [c; view (Res (length (trace w)
                                + length (prelude self q k v cache md (length (trace w)))))
                       [Size (Arg q) 0; Size (Arg q) 1]]) w.
Proof.
  rewrite forward_unfold. unfold forward_outcome.
  destruct (negb (_ && _)); [done |].
  destruct (negb (AttentionType_eqb _ _)); [done |].
  destruct (N.ltb_spec 0 (FlashInferMetadata.num_prefill_tokens md)) as [Hp | Hp];
    destruct (N.ltb_spec 0 (FlashInferMetadata.num_decode_tokens md)) as [Hd | Hd];
    simpl; [done | | |].
  all: destruct (kernel_call _ _ _ _ _ _) as [c | e] eqn:Hc; [| done].
  all: destruct (runnable w c) eqn:Hr; [| done].
  all: intros [= <- <-]; split; [lia | by eauto 10].
Qed.

Lemma kernel_call_ok_inv self cache md qv kv vv c :
  kernel_call self cache md qv kv vv = Ok c ->
  (FlashInferMetadata.num_decode_tokens md = 0%N /\
   (0 < FlashInferMetadata.num_prefills md)%N /\ cache = None /\
   path_of_call c = Some NoCacheFallback /\ wrapper_of_call c = None) \/
  (FlashInferMetadata.num_decode_tokens md = 0%N /\
   (0 < FlashInferMetadata.num_prefills md)%N /\ cache <> None /\
   path_of_call c = Some PagedPrefill /\
   exists r, FlashInferMetadata.prefill_wrapper md = Some r /\
             wrapper_of_call c = Some r) \/
  ((0 < FlashInferMetadata.num_decode_tokens md)%N /\
   FlashInferMetadata.num_prefills md = 0%N /\
   path_of_call c = Some PagedDecode /\
   exists r, FlashInferMetadata.decode_wrapper md = Some r /\
             wrapper_of_call c = Some r).
Proof.
  unfold kernel_call, FlashInferMetadata.prefill_metadata,
    FlashInferMetadata.decode_metadata.
  destruct (N.eqb_spec (FlashInferMetadata.num_decode_tokens md) 0) as [Hd | Hd];
    destruct (N.ltb_spec 0 (FlashInferMetadata.num_prefills md)) as [Hn | Hn];
    try done.
  - destruct cache as [c0 |].
    + destruct (FlashInferMetadata.prefill_wrapper md) as [r |] eqn:Hr; [| done].
      intros [= <-]. right. left. by eauto 10.
    + intros [= <-]. left. by eauto 10.
  - destruct (FlashInferMetadata.decode_wrapper md) as [r |] eqn:Hr; [| done].
    intros [= <-]. right. right.
    repeat split; [lia | lia | by eauto].
Qed.

(** C1, as the code has it: on a call that returns exactly one of the three
    paths is taken, and it is chosen by the classification, that is by the
    number of decode tokens, not by the number of prefill tokens.  With no
    decode token (the batch then has prefill requests) the dense fallback
    runs exactly when the cache is absent, invoking no wrapper, and the
    paged prefill exactly when a cache is attached, invoking the prefill
    wrapper and nothing else; with decode tokens (the batch then has no
    prefill token and no prefill request) the paged decode runs and invokes
    the decode wrapper and nothing else, cache or no cache.  For callers that
    pass no cache only with prefill tokens and never pass a batch without
    tokens these are the conditions of the claim: the fallback exactly when
    the cache is absent, the paged prefill exactly when there are prefill
    tokens and a cache, the paged decode exactly when there are decode tokens
    and a cache. *)
Theorem forward_dispatch_by_classification (self : FlashInferImpl.t)
    (query key val : Torch.tensor) (kv_cache : option Torch.tensor)
    (attn_metadata : FlashInferMetadata.t) (k_scale v_scale : float)
    (attn_type : AttentionType) (w w' : world) (out : value) :
  FlashInferImpl.forward self query key val kv_cache attn_metadata
    k_scale v_scale attn_type w = (Ok out, w') ->
  exists p : path,
    paths_taken w w' = [p] /\
    (p = NoCacheFallback <->
       FlashInferMetadata.num_decode_tokens attn_metadata = 0%N /\ kv_cache = None) /\
    (p = PagedPrefill <->
       FlashInferMetadata.num_decode_tokens attn_metadata = 0%N /\ kv_cache <> None) /\
    (p = PagedDecode <->
       (0 < FlashInferMetadata.num_decode_tokens attn_metadata)%N) /\
    (FlashInferMetadata.num_decode_tokens attn_metadata = 0%N ->
     (0 < FlashInferMetadata.num_prefills attn_metadata)%N) /\
    ((0 < FlashInferMetadata.num_decode_tokens attn_metadata)%N ->
     FlashInferMetadata.num_prefill_tokens attn_metadata = 0%N /\
     FlashInferMetadata.num_prefills attn_metadata = 0%N) /\
    match p with
    | NoCacheFallback => wrappers_invoked w w' = []
    | PagedPrefill =>
        exists r, FlashInferMetadata.prefill_wrapper attn_metadata = Some r /\
                  wrappers_invoked w w' = [r]
    | PagedDecode =>
        exists r, FlashInferMetadata.decode_wrapper attn_metadata = Some r /\
                  wrappers_invoked w w' = [r]
    end /\
    ((kv_cache = None ->
      (0 < FlashInferMetadata.num_prefill_tokens attn_metadata)%N) ->
     (0 < FlashInferMetadata.num_prefill_tokens attn_metadata)%N \/
     (0 < FlashInferMetadata.num_decode_tokens attn_metadata)%N ->
     (p = NoCacheFallback <-> kv_cache = None) /\
     (p = PagedPrefill <->
        (0 < FlashInferMetadata.num_prefill_tokens attn_metadata)%N /\
        kv_cache <> None) /\
     (p = PagedDecode <->
        (0 < FlashInferMetadata.num_decode_tokens attn_metadata)%N /\
        kv_cache <> None)).
Proof.
  intros Hrun.
  apply forward_ok_inv in Hrun as [Hmixed (c & qv & kv & vv & Hc & _ & ->)].
  unfold paths_taken, wrappers_invoked. rewrite new_calls_log, !omap_app.
  destruct (prelude_paths self query key val kv_cache attn_metadata (length (trace w)))
    as [-> ->].
  simpl.
  apply kernel_call_ok_inv in Hc
    as [(Hd & Hn & Hcache & -> & ->) | [(Hd & Hn & Hcache & -> & r & Hr & ->)
                                       | (Hd & Hn & -> & r & Hr & ->)]].
  - exists NoCacheFallback. simpl.
    repeat split; intros; destruct_and?; try done; try lia.
  - exists PagedPrefill. simpl.
    repeat split; intros; destruct_and?; try done; try lia; eauto.
  - exists PagedDecode. simpl.
    repeat split; intros; destruct_and?; try done; try lia; eauto.
    all: exfalso;
      match goal with
      | H : ?c = None, Hp : ?c = None -> _ |- _ => specialize (Hp H)
      end; lia.
Qed.

(** C2, as the code has it: a call on metadata with both token counts
    nonzero raises, and what it logged before raising holds no cache write
    and no kernel call; when the call passes the two argument checks (unit
    scales, decoder attention) the exception is the chunked-prefill assertion,
    raised after the three reshapes; otherwise it is the exception of the
    check that comes first, the scale assertion when a scale is not 1.0 and
    [NotImplementedError] when the scales are 1.0 and the attention type is
    not the decoder's, and nothing has been done.  A call that returns has
    exactly one count nonzero, or both zero on metadata that still reports
    prefill requests. *)
Theorem forward_rejects_mixed_batch (self : FlashInferImpl.t)
    (query key val : Torch.tensor) (kv_cache : option Torch.tensor)
    (attn_metadata : FlashInferMetadata.t) (k_scale v_scale : float)
    (attn_type : AttentionType) (w : world) :
  ((0 < FlashInferMetadata.num_prefill_tokens attn_metadata)%N ->
   (0 < FlashInferMetadata.num_decode_tokens attn_metadata)%N ->
   exists e w',
     FlashInferImpl.forward self query key val kv_cache attn_metadata
       k_scale v_scale attn_type w = (Raise e, w') /\
     paths_taken w w' = [] /\ cache_writes w w' = [] /\
     (unit_scale k_scale -> unit_scale v_scale -> attn_type = DECODER ->
      e = AssertionError (Some FlashInferImpl.chunked_prefill_msg) /\
      w' = log (views self query key val) w) /\
     (~ (unit_scale k_scale /\ unit_scale v_scale) ->
      e = AssertionError (Some FlashInferImpl.k_scale_msg) /\ w' = w) /\
     (unit_scale k_scale -> unit_scale v_scale -> attn_type <> DECODER ->
      e = NotImplementedError /\ w' = w)) /\
  (forall out w',
     FlashInferImpl.forward self query key val kv_cache attn_metadata
       k_scale v_scale attn_type w = (Ok out, w') ->
     ((0 < FlashInferMetadata.num_prefill_tokens attn_metadata)%N /\
      FlashInferMetadata.num_decode_tokens attn_metadata = 0%N) \/
     (FlashInferMetadata.num_prefill_tokens attn_metadata = 0%N /\
      (0 < FlashInferMetadata.num_decode_tokens attn_metadata)%N) \/
     (FlashInferMetadata.num_prefill_tokens attn_metadata = 0%N /\
      FlashInferMetadata.num_decode_tokens attn_metadata = 0%N /\
      (0 < FlashInferMetadata.num_prefills attn_metadata)%N)).
Proof.
  split.
  - intros Hp Hd. rewrite forward_unfold. unfold forward_outcome, unit_scale.
    assert (new_calls w w = []) as Hnone.
    { unfold new_calls. by rewrite drop_all. }
    destruct (PrimFloat.eqb k_scale 1 && PrimFloat.eqb v_scale 1) eqn:Hs; simpl.
    + apply andb_true_iff in Hs as [Hk Hv].
      destruct (AttentionType_eqb attn_type DECODER) eqn:Ht; simpl.
      * apply AttentionType_eqb_eq in Ht.
        apply N.ltb_lt in Hp, Hd. rewrite Hp, Hd. simpl.
        eexists _, _. split; [reflexivity |].
        unfold paths_taken, cache_writes. rewrite new_calls_log.
        destruct (views_quiet self query key val) as [-> ->].
        split; [done | split; [done |]].
        split; [done | split]; [intros Hn; by destruct Hn | by intros _ _ Hn].
      * eexists _, _. split; [reflexivity |].
        unfold paths_taken, cache_writes. rewrite Hnone.
        split; [done | split; [done |]].
        split; [| split]; [| intros Hn; by destruct Hn | done].
        intros _ _ ->. done.
    + eexists _, _. split; [reflexivity |].
      unfold paths_taken, cache_writes. rewrite Hnone.
      split; [done | split; [done |]].
      split; [| split]; [| done |]; intros Hk Hv; by rewrite Hk, Hv in Hs.
  - intros out w' Hrun.
    apply forward_ok_inv in Hrun as [Hmixed (c & qv & kv & vv & Hc & _ & _)].
    apply kernel_call_ok_inv in Hc
      as [(Hd & Hn & _) | [(Hd & Hn & _) | (Hd & Hn & _)]]; lia.
Qed.

(** C10: on metadata of an empty batch the prefill classification raises
    its assertion; and [forward], whatever its other arguments, raises
    without having taken any of the three paths or invoked a wrapper. *)
Theorem forward_empty_batch_no_dispatch (md : FlashInferMetadata.t) :
  FlashInferMetadata.num_prefill_tokens md = 0%N ->
  FlashInferMetadata.num_decode_tokens md = 0%N ->
  FlashInferMetadata.num_prefills md = 0%N ->
  FlashInferMetadata.prefill_metadata md = Raise (AssertionError None) /\
  forall (self : FlashInferImpl.t) (query key val : Torch.tensor)
         (kv_cache : option Torch.tensor) (k_scale v_scale : float)
         (attn_type : AttentionType) (w : world),
  exists e w',
    FlashInferImpl.forward self query key val kv_cache md
      k_scale v_scale attn_type w = (Raise e, w') /\
    paths_taken w w' = [] /\ wrappers_invoked w w' = [].
Proof.
  intros Hp Hd Hn.
  assert (FlashInferMetadata.prefill_metadata md = Raise (AssertionError None)) as Hpm.
  { unfold FlashInferMetadata.prefill_metadata. by rewrite Hd, Hn. }
  split; [done |]. intros self q k v cache ks vs ty w.
  rewrite forward_unfold. unfold forward_outcome.
  assert (new_calls w w = []) as Hnone.
  { unfold new_calls. by rewrite drop_all. }
  destruct (negb (_ && _)).
  { eexists _, _. split; [reflexivity |]. unfold paths_taken, wrappers_invoked.
    by rewrite Hnone. }
  destruct (negb (AttentionType_eqb _ _)).
  { eexists _, _. split; [reflexivity |]. unfold paths_taken, wrappers_invoked.
    by rewrite Hnone. }
  rewrite Hp, Hd. simpl. unfold kernel_call. rewrite Hpm.
  eexists _, _. split; [reflexivity |]. unfold paths_taken, wrappers_invoked.
  rewrite new_calls_log.
  by destruct (prelude_paths self q k v cache md (length (trace w))) as [-> ->].
Qed.

Lemma forward_dispatch_by_classification_witness :
  exists p : path,
    paths_taken decode_ready.2 decode_run.2 = [p] /\
    (p = PagedDecode <->
       (0 < FlashInferMetadata.num_decode_tokens decode_ready.1)%N) /\
    match p with
    | NoCacheFallback => wrappers_invoked decode_ready.2 decode_run.2 = []
    | PagedPrefill =>
        exists r, FlashInferMetadata.prefill_wrapper decode_ready.1 = Some r /\
                  wrappers_invoked decode_ready.2 decode_run.2 = [r]
    | PagedDecode =>
        exists r, FlashInferMetadata.decode_wrapper decode_ready.1 = Some r /\
                  wrappers_invoked decode_ready.2 decode_run.2 = [r]
    end.
Proof.
  assert (FlashInferImpl.forward impl0 q0 k0 v0 (Some cache0) decode_ready.1 1 1
            DECODER decode_ready.2 = (Ok (Res 9), decode_run.2)) as Hrun
    by (vm_compute; reflexivity).
  destruct (forward_dispatch_by_classification _ _ _ _ _ _ _ _ _ _ _ _ Hrun)
    as (p & Hpaths & _ & _ & Hdecode & _ & _ & Hwrappers & _).
  exists p. split; [exact Hpaths | split; [exact Hdecode | exact Hwrappers]].
Defined.

(** The claim of C1 fails on what selects the path.  Metadata that counts a
    prefill request and no token goes, with a cache, through the paged
    prefill although it has no prefill token; metadata that counts five
    prefill tokens and no prefill request passes the batch-shape assertions,
    has the cache written, and fails the classification, so no path runs. *)
Lemma dispatch_ignores_prefill_token_count :
  (FlashInferMetadata.num_prefill_tokens tokenless_prefill_batch = 0%N /\
   paths_taken prefill_ready.2
     (FlashInferImpl.forward impl0 q0 k0 v0 (Some cache0) tokenless_prefill_batch 1 1
        DECODER prefill_ready.2).2 = [PagedPrefill]) /\
  ((0 < FlashInferMetadata.num_prefill_tokens requestless_prefill_batch)%N /\
   (FlashInferImpl.forward impl0 q0 k0 v0 (Some cache0) requestless_prefill_batch 1 1
      DECODER prefill_ready.2).1 = Raise (AssertionError None) /\
   paths_taken prefill_ready.2
     (FlashInferImpl.forward impl0 q0 k0 v0 (Some cache0) requestless_prefill_batch 1 1
        DECODER prefill_ready.2).2 = []).
Proof. vm_compute. repeat split. Qed.

(** The three paths on the sample batches: the scenario of two decode
    requests takes the paged decode and invokes the decode wrapper. *)
Example sample_paths :
  paths_taken decode_ready.2 decode_run.2 = [PagedDecode] /\
  wrappers_invoked decode_ready.2 decode_run.2 = [2%positive] /\
  paths_taken prefill_ready.2 prefill_run.2 = [PagedPrefill] /\
  wrappers_invoked prefill_ready.2 prefill_run.2 = [1%positive] /\
  paths_taken world0 profiling_run.2 = [NoCacheFallback] /\
  wrappers_invoked world0 profiling_run.2 = [].
Proof. vm_compute. done. Qed.

(** The scenario's page index, as planned on the decode wrapper. *)
Example sample_decode_plan :
  session_of decode_ready.2 2
  = [Wrapper.DecodePlan
       (Some (Torch.Tensor 11 gpu [0; 2; 3])) (Some (Torch.Tensor 10 gpu [2; 5; 7]))
       (Some (Torch.Tensor 12 gpu [3; 9]))
       (Some 32) (Some 8) (Some 128) (Some 16) "NONE" (Some Torch.float16)].
Proof. vm_compute. done. Qed.

(** Outside the callers' contract: [forward] does not look at the cache
    when it classifies, so a decode batch passed without a cache goes to the
    decode wrapper. *)
Example decode_without_cache :
  paths_taken decode_ready.2
    (FlashInferImpl.forward impl0 q0 k0 v0 None decode_ready.1 1 1 DECODER
       decode_ready.2).2 = [PagedDecode].
Proof. vm_compute. done. Qed.

(** A wrapper that was never planned cannot run. *)
Example forward_unplanned :
  (FlashInferImpl.forward impl0 q0 k0 v0 (Some cache0) (decode_batch false) 1 1
     DECODER world0).1 = Raise RuntimeError.
Proof. vm_compute. done. Qed.

Lemma forward_rejects_mixed_batch_witness :
  exists e w',
    FlashInferImpl.forward impl0 q0 k0 v0 (Some cache0) mixed_batch 1 1 DECODER world0
    = (Raise e, w') /\
    paths_taken world0 w' = [] /\ cache_writes world0 w' = [] /\
    (unit_scale 1 -> unit_scale 1 -> DECODER = DECODER ->
     e = AssertionError (Some FlashInferImpl.chunked_prefill_msg) /\
     w' = log (views impl0 q0 k0 v0) world0) /\
    (~ (unit_scale 1 /\ unit_scale 1) ->
     e = AssertionError (Some FlashInferImpl.k_scale_msg) /\ w' = world0) /\
    (unit_scale 1 -> unit_scale 1 -> DECODER <> DECODER ->
     e = NotImplementedError /\ w' = world0).
Proof.
  apply (proj1 (forward_rejects_mixed_batch impl0 q0 k0 v0 (Some cache0) mixed_batch
                  1 1 DECODER world0)); reflexivity.
Defined.

(** The claim of C2 fails twice.  On the error raised: a mixed batch in an
    encoder call is turned down by the attention-type check, with
    [NotImplementedError].  On the count of a batch that passes: metadata
    that reports a prefill request and no token at all is classified as a
    prefill and runs. *)
Lemma mixed_batch_encoder_call_not_implemented :
  ((0 < FlashInferMetadata.num_prefill_tokens mixed_batch)%N /\
   (0 < FlashInferMetadata.num_decode_tokens mixed_batch)%N /\
   FlashInferImpl.forward impl0 q0 k0 v0 (Some cache0) mixed_batch 1 1 ENCODER world0
   = (Raise NotImplementedError, world0)) /\
  (FlashInferMetadata.num_prefill_tokens tokenless_prefill_batch = 0%N /\
   FlashInferMetadata.num_decode_tokens tokenless_prefill_batch = 0%N /\
   (FlashInferImpl.forward impl0 q0 k0 v0 None tokenless_prefill_batch 1 1 DECODER
      world0).1 = Ok (Res 5)).
Proof. repeat split. Qed.

Lemma forward_empty_batch_no_dispatch_witness :
  FlashInferMetadata.prefill_metadata empty_batch = Raise (AssertionError None) /\
  forall (self : FlashInferImpl.t) (query key val : Torch.tensor)
         (kv_cache : option Torch.tensor) (k_scale v_scale : float)
         (attn_type : AttentionType) (w : world),
  exists e w',
    FlashInferImpl.forward self query key val kv_cache empty_batch
      k_scale v_scale attn_type w = (Raise e, w') /\
    paths_taken w w' = [] /\ wrappers_invoked w w' = [].
Proof.
  apply (forward_empty_batch_no_dispatch empty_batch); reflexivity.
Defined.

(** On the empty batch with a cache attached the cache write has happened
    by the time the classification raises. *)
Example empty_batch_run :
  FlashInferImpl.forward impl0 q0 k0 v0 (Some cache0) empty_batch 1 1 DECODER world0
  = (Raise (AssertionError None),
     log (prelude impl0 q0 k0 v0 (Some cache0) empty_batch 0) world0).
Proof. vm_compute. done. Qed.



Lemma begin_forward_transfer_witness :
  decode_ready.1
  = FlashInferMetadata.set_paged_kv_indptr
      (FlashInferMetadata.paged_kv_indptr decode_ready.1)
      (FlashInferMetadata.set_paged_kv_indices
         (FlashInferMetadata.paged_kv_indices decode_ready.1)
         (FlashInferMetadata.set_paged_kv_last_page_len
            (FlashInferMetadata.paged_kv_last_page_len decode_ready.1)
            (decode_batch false))) /\
  moved_to gpu (Some (host_tensor 3 [2; 5; 7]))
    (FlashInferMetadata.paged_kv_indices decode_ready.1) /\
  FlashInferMetadata.paged_kv_indices captured_ready.1
  = Some (Torch.Tensor 3 gpu [2; 5; 7]).
Proof.
  assert (FlashInferMetadata.begin_forward (decode_batch false, world0)
          = (Ok tt, (decode_ready.1, decode_ready.2))) as Hdecode
    by (vm_compute; reflexivity).
  assert (FlashInferMetadata.begin_forward (captured_decode_batch, world0)
          = (Ok tt, (captured_ready.1, captured_ready.2))) as Hcaptured
    by (vm_compute; reflexivity).
  pose proof (begin_forward_transfer _ _ _ _ Hdecode) as [Hframe [Hmoved _]].
  pose proof (begin_forward_transfer _ _ _ _ Hcaptured) as [_ [_ Hkept]].
  split; [exact Hframe | split].
  - apply Hmoved; [reflexivity |].
    repeat split; eexists; reflexivity.
  - apply Hkept; [reflexivity | | |]; intros a [= <-]; reflexivity.
Defined.

(** What the flag decides, and where: a decode batch under capture keeps its
    arrays even on the host, while the prefill branch does not read the flag
    and moves host arrays all the same. *)
Example capture_flag_only_read_for_decode :
  (FlashInferMetadata.begin_forward (decode_batch true, world0)).2.1 = decode_batch true /\
  FlashInferMetadata.paged_kv_indices
    (FlashInferMetadata.begin_forward (prefill_batch true, world0)).2.1
  = Some (Torch.Tensor 10 gpu [0]).
Proof. vm_compute. done. Qed.

Lemma begin_forward_twice_witness :
  FlashInferMetadata.begin_forward decode_ready = (Ok tt, decode_ready) /\
  exists r,
    FlashInferMetadata.decode_wrapper (decode_batch false) = Some r /\
    session_of decode_ready.2 r = [decode_plan_of decode_ready.1].
Proof.
  assert (FlashInferMetadata.begin_forward (decode_batch false, world0)
          = (Ok tt, (decode_ready.1, decode_ready.2))) as Hdecode
    by (vm_compute; reflexivity).
  pose proof (begin_forward_twice _ _ _ _ Hdecode) as [Hagain [_ Hplanned]].
  split; [exact Hagain |].
  apply Hplanned. by left.
Defined.

(** A wrapper that comes in holding a plan, or two, leaves with one. *)
Example begin_forward_tears_down :
  let stale := World {[ 2%positive := [prefill_plan_of (prefill_batch false);
                                      decode_plan_of (decode_batch true)] ]} 10 [] in
  session_of (FlashInferMetadata.begin_forward (decode_batch false, stale)).2.2 2
  = session_of decode_ready.2 2.
Proof. vm_compute. done. Qed.

(** ** Further properties *)

(** *** The classification properties *)

(** X1: the prefill classification raises exactly on a batch with no decode
    token and no prefill request, the decode classification exactly on a
    batch with prefill requests and decode tokens; when both return, exactly
    one of them returns the metadata and the other returns [None]. *)
Theorem classification_exclusive (md : FlashInferMetadata.t) :
  (FlashInferMetadata.prefill_metadata md = Raise (AssertionError None) <->
   FlashInferMetadata.num_decode_tokens md = 0%N /\
   FlashInferMetadata.num_prefills md = 0%N) /\
  (FlashInferMetadata.decode_metadata md = Raise (AssertionError None) <->
   (0 < FlashInferMetadata.num_prefills md)%N /\
   (0 < FlashInferMetadata.num_decode_tokens md)%N) /\
  (forall p d,
     FlashInferMetadata.prefill_metadata md = Ok p ->
     FlashInferMetadata.decode_metadata md = Ok d ->
     (p = Some md /\ d = None) \/ (p = None /\ d = Some md)).
Proof.
  unfold FlashInferMetadata.prefill_metadata, FlashInferMetadata.decode_metadata.
  destruct (N.eqb_spec (FlashInferMetadata.num_decode_tokens md) 0) as [Hd | Hd];
    destruct (N.ltb_spec 0 (FlashInferMetadata.num_prefills md)) as [Hn | Hn].
  - split; [split; [done | lia] |]. split; [split; [done | lia] |].
    intros p d [= <-] [= <-]. by left.
  - split; [split; [intros _; lia | done] |]. split; [split; [done | lia] |]. done.
  - split; [split; [done | lia] |]. split; [split; [intros _; lia | done] |]. done.
  - split; [split; [done | lia] |]. split; [split; [done | lia] |].
    intros p d [= <-] [= <-]. by right.
Qed.

Lemma classification_exclusive_witness :
  (Some (prefill_batch false) = Some (prefill_batch false) /\ @None FlashInferMetadata.t = None) \/
  (Some (prefill_batch false) = None /\ None = Some (prefill_batch false)).
Proof.
  apply (proj2 (proj2 (classification_exclusive (prefill_batch false)))); reflexivity.
Defined.

(** *** Construction of the implementation *)

(** X2: a constructor call that returns had no sliding window, stores the
    head counts, head size, scale and cache dtype it was given and the
    slopes as a [float32] tensor, each slope rounded to binary32, sets the
    window to (-1, -1), and gives a group size that multiplies back exactly:
    [num_queries_per_kv * num_kv_heads = num_heads] with [num_kv_heads] not
    zero.  A call that raises does so with
    [ValueError] for a sliding window (checked first), [ZeroDivisionError]
    for zero key/value heads, or the assertion when the heads do not
    divide. *)
Theorem init_outcome (num_heads head_size : Z) (scale : float) (num_kv_heads : Z)
    (alibi_slopes : option (list float)) (sliding_window : option Z)
    (kv_cache_dtype : string) (blocksparse_params : option (gmap string pyval)) :
  (forall impl,
     FlashInferImpl.__init__ num_heads head_size scale num_kv_heads alibi_slopes
       sliding_window kv_cache_dtype blocksparse_params = Ok impl ->
     sliding_window = None /\
     FlashInferImpl.num_heads impl = num_heads /\
     FlashInferImpl.head_size impl = head_size /\
     FlashInferImpl.scale impl = scale /\
     FlashInferImpl.num_kv_heads impl = num_kv_heads /\
     FlashInferImpl.alibi_slopes impl
     = option_map Torch.tensor_float32 alibi_slopes /\
     FlashInferImpl.kv_cache_dtype impl = kv_cache_dtype /\
     FlashInferImpl.sliding_window impl = (-1, -1) /\
     FlashInferImpl.num_kv_heads impl <> 0 /\
     FlashInferImpl.num_queries_per_kv impl * FlashInferImpl.num_kv_heads impl
     = FlashInferImpl.num_heads impl) /\
  (forall e,
     FlashInferImpl.__init__ num_heads head_size scale num_kv_heads alibi_slopes
       sliding_window kv_cache_dtype blocksparse_params = Raise e ->
     (e = ValueError /\ sliding_window <> None) \/
     (e = ZeroDivisionError /\ sliding_window = None /\ num_kv_heads = 0) \/
     (e = AssertionError None /\ sliding_window = None /\ num_kv_heads <> 0 /\
      num_heads mod num_kv_heads <> 0)).
Proof.
  unfold FlashInferImpl.__init__.
  destruct sliding_window as [sw |].
  { split; [done |]. intros e [= <-]. by left. }
  destruct (Z.eqb_spec num_kv_heads 0) as [Hz | Hnz].
  { split; [done |]. intros e [= <-]. right. by left. }
  destruct (Z.eqb_spec (num_heads mod num_kv_heads) 0) as [Hdiv | Hndiv]; simpl.
  - split; [| done]. intros impl [= <-]. simpl. repeat split; try done.
    rewrite Z.mul_comm. symmetry. by apply Z.div_exact.
  - split; [done |]. intros e [= <-]. right. right. done.
Qed.

Lemma init_outcome_witness :
  FlashInferImpl.num_queries_per_kv impl0 * FlashInferImpl.num_kv_heads impl0
  = FlashInferImpl.num_heads impl0.
Proof.
  apply (proj1 (init_outcome 32 128 1%float 8 None None "auto" None) impl0 eq_refl).
Defined.

(** The slopes are stored in single precision: the double nearest to 0.1
    becomes the binary32 value nearest to it, and 0.5, which binary32 holds
    exactly, stays. *)
Example init_rounds_alibi_slopes :
  FlashInferImpl.__init__ 32 128 1%float 8 (Some [0x1.999999999999ap-4; 0.5]%float)
    None "auto" None
  = Ok (FlashInferImpl.Build 32 128 1%float 8 (Some [0x1.99999ap-4; 0.5]%float)
          (-1, -1) "auto" 4).
Proof. vm_compute. reflexivity. Qed.

(** *** begin_forward: when it returns, how it fails, what it leaves alone *)

Lemma begin_forward_run_ready md w md' w' :
  begin_forward_run md w md' w' -> begin_forward_ready md.
Proof.
  unfold begin_forward_ready, page_index_present.
  intros [Hpos Hi | r i p l Hpos Hr Hi Hp Hl | r i p l Hz Hcg Hr Hi Hp Hl | r Hz Hcg Hr].
  - apply N.ltb_lt in Hpos. rewrite Hpos. by left.
  - apply N.ltb_lt in Hpos. rewrite Hpos. right. rewrite Hr, Hi, Hp, Hl. eauto 10.
  - rewrite Hz. simpl. rewrite Hr, Hi, Hp, Hl. eauto 10.
  - rewrite Hz. simpl. rewrite Hr. eauto.
Qed.

Lemma begin_forward_ready_run md w :
  begin_forward_ready md -> exists md' w', begin_forward_run md w md' w'.
Proof.
  unfold begin_forward_ready, page_index_present.
  destruct (N.ltb_spec 0 (FlashInferMetadata.num_prefill_tokens md)) as [Hpos | Hz].
  - intros [Hi | [[r Hr] ([i Hi] & [p Hp] & [l Hl])]].
    + eexists _, _. by apply run_profiling.
    + eexists _, _. by apply (run_prefill md w r i p l).
  - assert (FlashInferMetadata.num_prefill_tokens md = 0%N) as Hz' by lia.
    intros [[r Hr] [Hcg | ([i Hi] & [p Hp] & [l Hl])]].
    + eexists _, _. by apply (run_decode_capture md w r).
    + destruct (FlashInferMetadata.use_cuda_graph md) eqn:Hcg.
      * eexists _, _. by apply (run_decode_capture md w r).
      * eexists _, _. by apply (run_decode md w r i p l).
Qed.

(** The failing runs of [begin_forward]: an assertion, either before
    anything was touched or, on a decode batch outside capture that has its
    page index but no decode wrapper, after the three arrays were moved. *)
Lemma begin_forward_raise_inv md w e md' w' :
  FlashInferMetadata.begin_forward (md, w) = (Raise e, (md', w')) ->
  e = AssertionError None /\
  ((md', w') = (md, w) \/
   exists i p l,
     FlashInferMetadata.num_prefill_tokens md = 0%N /\
     FlashInferMetadata.use_cuda_graph md = false /\
     FlashInferMetadata.decode_wrapper md = None /\
     FlashInferMetadata.paged_kv_indices md = Some i /\
     FlashInferMetadata.paged_kv_indptr md = Some p /\
     FlashInferMetadata.paged_kv_last_page_len md = Some l /\
     (md', w') = transferred md w i p l).
Proof.
  intros Hrun.
  assert (forall md2 w2, begin_forward_run md w md2 w2 -> False) as Hnot.
  { intros md2 w2 H2. pose proof (begin_forward_sound _ _ _ _ H2) as Hs.
    rewrite Hs in Hrun. done. }
  destruct (N.ltb_spec 0 (FlashInferMetadata.num_prefill_tokens md)) as [Hpos | Hz].
  - destruct (FlashInferMetadata.paged_kv_indices md) as [i |] eqn:Hi;
      [| exfalso; by apply (Hnot md w), run_profiling].
    apply N.ltb_lt in Hpos.
    unfold FlashInferMetadata.begin_forward in Hrun.
    rewrite bind_self_get, Hpos, bind_self_get, Hi in Hrun.
    rewrite bind_self_get, bind_assert in Hrun.
    destruct (FlashInferMetadata.prefill_wrapper md) as [r |] eqn:Hr; simpl in Hrun;
      [| simplify_eq; by eauto].
    rewrite bind_self_get, Hi, bind_assert in Hrun. simpl in Hrun.
    rewrite bind_self_get, bind_assert in Hrun.
    destruct (FlashInferMetadata.paged_kv_indptr md) as [p |] eqn:Hp; simpl in Hrun;
      [| simplify_eq; by eauto].
    rewrite bind_self_get, bind_assert in Hrun.
    destruct (FlashInferMetadata.paged_kv_last_page_len md) as [l |] eqn:Hl;
      simpl in Hrun; [| simplify_eq; by eauto].
    exfalso. apply N.ltb_lt in Hpos. by eapply Hnot, (run_prefill md w r i p l).
  - assert (FlashInferMetadata.num_prefill_tokens md = 0%N) as Hz' by lia.
    unfold FlashInferMetadata.begin_forward in Hrun.
    rewrite bind_self_get, Hz' in Hrun. simpl in Hrun.
    rewrite bind_self_get in Hrun.
    destruct (FlashInferMetadata.use_cuda_graph md) eqn:Hcg; simpl in Hrun.
    + unfold bind at 1 in Hrun. simpl in Hrun.
      rewrite bind_self_get, bind_assert in Hrun.
      destruct (FlashInferMetadata.decode_wrapper md) as [r |] eqn:Hr; simpl in Hrun;
        [| simplify_eq; by eauto].
      exfalso. by eapply Hnot, (run_decode_capture md w r).
    + unfold bind at 1 in Hrun.
      rewrite bind_self_get, bind_assert in Hrun.
      destruct (FlashInferMetadata.paged_kv_indices md) as [i |] eqn:Hi; simpl in Hrun;
        [| simplify_eq; by eauto].
      rewrite bind_self_get, bind_assert in Hrun.
      destruct (FlashInferMetadata.paged_kv_indptr md) as [p |] eqn:Hp; simpl in Hrun;
        [| simplify_eq; by eauto].
      rewrite bind_self_get, bind_assert in Hrun.
      destruct (FlashInferMetadata.paged_kv_last_page_len md) as [l |] eqn:Hl;
        simpl in Hrun; [| simplify_eq; by eauto].
      destruct (FlashInferMetadata.decode_wrapper md) as [r |] eqn:Hr.
      * exfalso. by eapply Hnot, (run_decode md w r i p l).
      * pose proof (transferred_wrappers md w i p l) as Hr1. rewrite Hr in Hr1.
        rewrite (transferred_run_last md w i p l Hi Hp Hl) in Hrun.
        remember (transferred md w i p l) as mw eqn:Hmw. destruct mw as [md1 w1].
        simpl in Hr1.
        rewrite bind_self_get, Hr1, bind_assert in Hrun. simpl in Hrun.
        injection Hrun as <- <- <-. split; [done |]. right.
        exists i, p, l. by rewrite <- Hmw.
Qed.

Lemma begin_forward_returns_or_raises md w :
  (exists md' w', FlashInferMetadata.begin_forward (md, w) = (Ok tt, (md', w'))) \/
  (exists e md' w', FlashInferMetadata.begin_forward (md, w) = (Raise e, (md', w'))).
Proof.
  destruct (FlashInferMetadata.begin_forward (md, w)) as [[[] | e] [md' w']]; eauto.
Qed.

(** X3: [begin_forward] returns exactly on metadata that is ready for it: a
    prefill batch needs no page index at all, or the prefill wrapper and
    the three arrays; a decode batch needs the decode wrapper and, outside
    graph capture, the three arrays.  Under capture a decode batch is
    planned with whatever arrays it has, absent ones included. *)
Theorem begin_forward_returns_iff_ready (md : FlashInferMetadata.t) (w : world) :
  (exists md' w', FlashInferMetadata.begin_forward (md, w) = (Ok tt, (md', w')))
  <-> begin_forward_ready md.
Proof.
  split.
  - intros (md' & w' & Hrun). apply begin_forward_complete in Hrun.
    by eapply begin_forward_run_ready.
  - intros Hready. destruct (begin_forward_ready_run md w Hready) as (md' & w' & Hrun).
    exists md', w'. by apply begin_forward_sound.
Qed.

(** X4: a [begin_forward] that raises raises an [AssertionError] without
    message, never an attribute error on a missing wrapper or array.  It has
    planned nothing and torn nothing down: the wrappers and the log are as
    before.  On a prefill batch, under graph capture, or when the decode
    wrapper is there, the metadata is untouched as well; the only failure
    that leaves a mark is the missing decode wrapper outside capture, found
    after the three arrays were moved to the device. *)
Theorem begin_forward_failure (md md' : FlashInferMetadata.t) (w w' : world)
    (e : exn) :
  FlashInferMetadata.begin_forward (md, w) = (Raise e, (md', w')) ->
  e = AssertionError None /\
  sessions w' = sessions w /\ trace w' = trace w /\
  ((0 < FlashInferMetadata.num_prefill_tokens md)%N \/
   FlashInferMetadata.use_cuda_graph md = true \/
   is_Some (FlashInferMetadata.decode_wrapper md) ->
   md' = md /\ w' = w) /\
  (md' <> md ->
   FlashInferMetadata.decode_wrapper md = None /\
   resident (FlashInferMetadata.device md) (FlashInferMetadata.paged_kv_indices md') /\
   resident (FlashInferMetadata.device md) (FlashInferMetadata.paged_kv_indptr md') /\
   resident (FlashInferMetadata.device md)
     (FlashInferMetadata.paged_kv_last_page_len md')).
Proof.
  intros Hrun.
  apply begin_forward_raise_inv in Hrun
    as [-> [[= -> ->] | (i & p & l & Hz & Hcg & Hr & Hi & Hp & Hl & Heq)]].
  - repeat split; try done.
  - assert (md' = (transferred md w i p l).1) as -> by by rewrite <- Heq.
    assert (w' = (transferred md w i p l).2) as -> by by rewrite <- Heq.
    split; [done |]. split; [done |]. split; [done |]. split.
    + intros [Hpos | [Htrue | [r Hsome]]]; [lia | congruence | congruence].
    + intros _. split; [done |].
      unfold resident, transferred. simpl.
      repeat split; intros a [= <-]; apply moved_device.
Qed.

Lemma begin_forward_returns_iff_ready_witness :
  exists md' w',
    FlashInferMetadata.begin_forward (decode_batch false, world0) = (Ok tt, (md', w')).
Proof.
  apply (proj2 (begin_forward_returns_iff_ready (decode_batch false) world0)).
  split; [by eexists |]. right. repeat split; by eexists.
Defined.

Lemma begin_forward_failure_witness :
  AssertionError None = AssertionError None /\
  sessions (FlashInferMetadata.begin_forward (decode_batch_no_wrapper, world0)).2.2
  = sessions world0 /\
  FlashInferMetadata.decode_wrapper decode_batch_no_wrapper = None.
Proof.
  assert (FlashInferMetadata.begin_forward (decode_batch_no_wrapper, world0)
          = (Raise (AssertionError None),
             ((FlashInferMetadata.begin_forward (decode_batch_no_wrapper, world0)).2.1,
              (FlashInferMetadata.begin_forward (decode_batch_no_wrapper, world0)).2.2)))
    as Hrun by (vm_compute; reflexivity).
  pose proof (begin_forward_failure _ _ _ _ _ Hrun) as (He & Hs & _ & _ & Hmark).
  split; [exact He | split; [exact Hs |]].
  apply Hmark. vm_compute. discriminate.
Defined.

(** The failure that leaves a mark: the arrays are on the device, the call
    raised. *)
Example begin_forward_failure_after_transfer :
  FlashInferMetadata.begin_forward (decode_batch_no_wrapper, world0)
  = (Raise (AssertionError None),
     (FlashInferMetadata.set_paged_kv_last_page_len (Some (Torch.Tensor 12 gpu [3; 9]))
        (FlashInferMetadata.set_paged_kv_indptr (Some (Torch.Tensor 11 gpu [0; 2; 3]))
           (FlashInferMetadata.set_paged_kv_indices (Some (Torch.Tensor 10 gpu [2; 5; 7]))
              decode_batch_no_wrapper)),
      World ∅ 13 [])).
Proof. vm_compute. reflexivity. Qed.

Lemma transferred_counts md w i p l :
  FlashInferMetadata.num_prefills (transferred md w i p l).1
  = FlashInferMetadata.num_prefills md /\
  FlashInferMetadata.num_prefill_tokens (transferred md w i p l).1
  = FlashInferMetadata.num_prefill_tokens md /\
  FlashInferMetadata.num_decode_tokens (transferred md w i p l).1
  = FlashInferMetadata.num_decode_tokens md /\
  FlashInferMetadata.prefill_wrapper (transferred md w i p l).1
  = FlashInferMetadata.prefill_wrapper md /\
  FlashInferMetadata.device (transferred md w i p l).1
  = FlashInferMetadata.device md.
Proof. done. Qed.

Lemma transferred_world md w i p l :
  sessions (transferred md w i p l).2 = sessions w /\
  trace (transferred md w i p l).2 = trace w.
Proof. done. Qed.

(** X5: a [begin_forward] that returns has called no tensor or kernel
    operation of the log, and has touched no wrapper but the one of the
    batch's phase: planning a decode batch leaves the prefill wrapper's plan
    as it was, and the other way round; the profiling pass touches none. *)
Theorem begin_forward_touches_phase_wrapper_only
    (md md' : FlashInferMetadata.t) (w w' : world) :
  FlashInferMetadata.begin_forward (md, w) = (Ok tt, (md', w')) ->
  trace w' = trace w /\
  (forall r, phase_wrapper md <> Some r -> session_of w' r = session_of w r) /\
  ((0 < FlashInferMetadata.num_prefill_tokens md)%N ->
   FlashInferMetadata.paged_kv_indices md = None -> sessions w' = sessions w).
Proof.
  intros Hrun. apply begin_forward_complete in Hrun. unfold phase_wrapper.
  destruct Hrun as [Hpos Hi | r i p l Hpos Hr Hi Hp Hl | r i p l Hz Hcg Hr Hi Hp Hl
                    | r Hz Hcg Hr].
  - done.
  - apply N.ltb_lt in Hpos. rewrite Hpos, Hr. split; [done |]. split; [| congruence].
    intros r' Hne. rewrite session_of_set_session_ne by congruence. done.
  - rewrite Hz. simpl. rewrite Hr. split; [done |]. split; [| lia].
    intros r' Hne. rewrite session_of_set_session_ne by congruence. done.
  - rewrite Hz. simpl. rewrite Hr. split; [done |]. split; [| lia].
    intros r' Hne. rewrite session_of_set_session_ne by congruence. done.
Qed.

Lemma begin_forward_touches_phase_wrapper_only_witness :
  session_of decode_ready.2 1 = session_of world0 1.
Proof.
  assert (FlashInferMetadata.begin_forward (decode_batch false, world0)
          = (Ok tt, (decode_ready.1, decode_ready.2))) as Hrun
    by (vm_compute; reflexivity).
  apply (proj1 (proj2 (begin_forward_touches_phase_wrapper_only _ _ _ _ Hrun))).
  vm_compute. discriminate.
Defined.

(** X6: where the graph-capture flag matters.  On a prefill batch that has a
    page index, a returning [begin_forward] leaves the three arrays on the
    device with their elements, whatever the flag says; on a decode batch
    under capture it leaves the metadata exactly as it was, arrays on the
    host or absent included, and allocates no tensor. *)
Theorem begin_forward_flag_by_branch (md md' : FlashInferMetadata.t) (w w' : world) :
  FlashInferMetadata.begin_forward (md, w) = (Ok tt, (md', w')) ->
  ((0 < FlashInferMetadata.num_prefill_tokens md)%N ->
   FlashInferMetadata.paged_kv_indices md <> None ->
   moved_to (FlashInferMetadata.device md)
     (FlashInferMetadata.paged_kv_indices md) (FlashInferMetadata.paged_kv_indices md') /\
   moved_to (FlashInferMetadata.device md)
     (FlashInferMetadata.paged_kv_indptr md) (FlashInferMetadata.paged_kv_indptr md') /\
   moved_to (FlashInferMetadata.device md)
     (FlashInferMetadata.paged_kv_last_page_len md)
     (FlashInferMetadata.paged_kv_last_page_len md')) /\
  (FlashInferMetadata.num_prefill_tokens md = 0%N ->
   FlashInferMetadata.use_cuda_graph md = true ->
   md' = md /\ next_id w' = next_id w).
Proof.
  intros Hrun. apply begin_forward_complete in Hrun.
  destruct Hrun as [Hpos Hi | r i p l Hpos Hr Hi Hp Hl | r i p l Hz Hcg Hr Hi Hp Hl
                    | r Hz Hcg Hr].
  - split; [done | lia].
  - split; [| lia]. intros _ _. unfold moved_to. rewrite Hi, Hp, Hl.
    repeat split; eexists _, _; (split; [reflexivity |]);
      (split; [reflexivity |]); split; auto using moved_device, moved_data.
  - split; [lia | congruence].
  - split; [lia | done].
Qed.

Lemma begin_forward_flag_by_branch_witness :
  moved_to gpu (Some (host_tensor 3 [0]))
    (FlashInferMetadata.paged_kv_indices
       (FlashInferMetadata.begin_forward (prefill_batch true, world0)).2.1) /\
  (FlashInferMetadata.begin_forward (decode_batch true, world0)).2.1 = decode_batch true.
Proof.
  assert (FlashInferMetadata.begin_forward (prefill_batch true, world0)
          = (Ok tt,
             ((FlashInferMetadata.begin_forward (prefill_batch true, world0)).2.1,
              (FlashInferMetadata.begin_forward (prefill_batch true, world0)).2.2)))
    as Hprefill by (vm_compute; reflexivity).
  assert (FlashInferMetadata.begin_forward (decode_batch true, world0)
          = (Ok tt,
             ((FlashInferMetadata.begin_forward (decode_batch true, world0)).2.1,
              (FlashInferMetadata.begin_forward (decode_batch true, world0)).2.2)))
    as Hdecode by (vm_compute; reflexivity).
  split.
  - apply (proj1 (begin_forward_flag_by_branch _ _ _ _ Hprefill)); [reflexivity | discriminate].
  - apply (proj2 (begin_forward_flag_by_branch _ _ _ _ Hdecode)); reflexivity.
Defined.

(** *** forward: its runs, its exceptions, what it logs *)

Lemma log_nil (w : world) : log [] w = w.
Proof. destruct w. unfold log. simpl. by rewrite app_nil_r. Qed.

Lemma kernel_call_is_kernel self cache md qv kv vv c :
  kernel_call self cache md qv kv vv = Ok c ->
  is_Some (path_of_call c) /\ query_of_call c = Some qv /\ is_cache_write c = false.
Proof.
  unfold kernel_call.
  destruct (FlashInferMetadata.prefill_metadata md) as [[pm |] | e]; [| | done].
  - destruct cache as [c0 |].
    + destruct (FlashInferMetadata.prefill_wrapper pm) as [r |]; [| done].
      intros [= <-]. by eauto.
    + intros [= <-]. by eauto.
  - destruct (FlashInferMetadata.decode_metadata md) as [[dm |] | e]; [| done | done].
    destruct (FlashInferMetadata.decode_wrapper dm) as [r |]; [| done].
    intros [= <-]. by eauto.
Qed.

(** The runs of [forward], one disjunct per way out. *)
Lemma forward_run_cases self q k v cache md ks vs ty w :
  (~ (unit_scale ks /\ unit_scale vs) /\
   FlashInferImpl.forward self q k v cache md ks vs ty w
   = (Raise (AssertionError (Some FlashInferImpl.k_scale_msg)), w)) \/
  (ty <> DECODER /\
   FlashInferImpl.forward self q k v cache md ks vs ty w
   = (Raise NotImplementedError, w)) \/
  (unit_scale ks /\ unit_scale vs /\ ty = DECODER /\
   (((0 < FlashInferMetadata.num_prefill_tokens md)%N /\
     (0 < FlashInferMetadata.num_decode_tokens md)%N /\
     FlashInferImpl.forward self q k v cache md ks vs ty w
     = (Raise (AssertionError (Some FlashInferImpl.chunked_prefill_msg)),
        log (views self q k v) w)) \/
    (~ ((0 < FlashInferMetadata.num_prefill_tokens md)%N /\
        (0 < FlashInferMetadata.num_decode_tokens md)%N) /\
     let n := length (trace w) in
     let pre := prelude self q k v cache md n in
     let m := (n + length pre)%nat in
     match kernel_call self cache md (Res (m - 1)) (Res (n + 1)) (Res (n + 2)) with
     | Raise e =>
         FlashInferImpl.forward self q k v cache md ks vs ty w = (Raise e, log pre w)
     | Ok c =>
         if runnable w c then
           FlashInferImpl.forward self q k v cache md ks vs ty w
           = (Ok (Res (m + 1)),
              log (pre ++ [c; view (Res m) [Size (Arg q) 0; Size (Arg q) 1]]) w)
         else
           FlashInferImpl.forward self q k v cache md ks vs ty w
           = (Raise RuntimeError, log pre w)
     end))).
Proof.
  rewrite forward_unfold. unfold forward_outcome, unit_scale.
  destruct (PrimFloat.eqb ks 1) eqn:Hk; destruct (PrimFloat.eqb vs 1) eqn:Hv; simpl;
    try (left; split; [by intros [? ?] | done]).
  destruct (AttentionType_eqb ty DECODER) eqn:Ht; simpl.
  2: { right. left. split; [| done]. intros ->. done. }
  apply AttentionType_eqb_eq in Ht. right. right.
  split; [done |]. split; [done |]. split; [done |].
  destruct (N.ltb_spec 0 (FlashInferMetadata.num_prefill_tokens md)) as [Hp | Hp];
    destruct (N.ltb_spec 0 (FlashInferMetadata.num_decode_tokens md)) as [Hd | Hd];
    simpl; [by left | right | right | right].
  all: split; [lia |].
  all: destruct (kernel_call _ _ _ _ _ _) as [c | e]; [| done].
  all: by destruct (runnable w c).
Qed.

(** X8: the message-less assertions of [forward], on tensors that the
    reshapes and the cache write accept.  With unit scales, the
    decoder attention type and a batch that is not mixed, [forward] raises a
    message-less [AssertionError], after the reshapes, the cache write and
    the [contiguous] call and before any kernel call, when the
    classification fails (no decode token and no prefill request, or decode
    tokens together with prefill requests) or when the wrapper of the path
    taken is missing from the metadata (a prefill with a cache and no
    prefill wrapper, a decode with no decode wrapper). *)
Theorem forward_classification_assertions (self : FlashInferImpl.t)
    (query key val : Torch.tensor) (kv_cache : option Torch.tensor)
    (attn_metadata : FlashInferMetadata.t) (k_scale v_scale : float) (w : world) :
  unit_scale k_scale -> unit_scale v_scale ->
  ~ ((0 < FlashInferMetadata.num_prefill_tokens attn_metadata)%N /\
     (0 < FlashInferMetadata.num_decode_tokens attn_metadata)%N) ->
  (FlashInferMetadata.num_decode_tokens attn_metadata = 0%N /\
   FlashInferMetadata.num_prefills attn_metadata = 0%N) \/
  ((0 < FlashInferMetadata.num_decode_tokens attn_metadata)%N /\
   (0 < FlashInferMetadata.num_prefills attn_metadata)%N) \/
  (FlashInferMetadata.num_decode_tokens attn_metadata = 0%N /\
   (0 < FlashInferMetadata.num_prefills attn_metadata)%N /\
   kv_cache <> None /\
   FlashInferMetadata.prefill_wrapper attn_metadata = None) \/
  ((0 < FlashInferMetadata.num_decode_tokens attn_metadata)%N /\
   FlashInferMetadata.num_prefills attn_metadata = 0%N /\
   FlashInferMetadata.decode_wrapper attn_metadata = None) ->
  FlashInferImpl.forward self query key val kv_cache attn_metadata
    k_scale v_scale DECODER w
  = (Raise (AssertionError None),
     log (prelude self query key val kv_cache attn_metadata (length (trace w))) w).
Proof.
  unfold unit_scale. intros Hk Hv Hmixed Hwhy.
  rewrite forward_unfold. unfold forward_outcome. rewrite Hk, Hv. simpl.
  destruct ((0 <? FlashInferMetadata.num_prefill_tokens attn_metadata)%N
            && (0 <? FlashInferMetadata.num_decode_tokens attn_metadata)%N) eqn:Hm.
  { exfalso. apply Hmixed. apply andb_true_iff in Hm as [Hp Hd].
    by apply N.ltb_lt in Hp, Hd. }
  unfold kernel_call, FlashInferMetadata.prefill_metadata,
    FlashInferMetadata.decode_metadata.
  destruct (N.eqb_spec (FlashInferMetadata.num_decode_tokens attn_metadata) 0)
    as [Hd | Hd];
    destruct (N.ltb_spec 0 (FlashInferMetadata.num_prefills attn_metadata))
      as [Hn | Hn];
    destruct Hwhy as [[? ?] | [[? ?] | [(? & ? & Hcache & Hr) | (? & ? & Hr)]]];
    try lia; try done.
  - destruct kv_cache as [c |]; [| done]. by rewrite Hr.
  - by rewrite Hr.
Qed.

Lemma forward_classification_assertions_witness :
  FlashInferImpl.forward impl0 q0 k0 v0 (Some cache0) decode_batch_no_wrapper 1 1
    DECODER world0
  = (Raise (AssertionError None),
     log (prelude impl0 q0 k0 v0 (Some cache0) decode_batch_no_wrapper
            (length (trace world0))) world0).
Proof.
  apply (forward_classification_assertions impl0 q0 k0 v0 (Some cache0)
           decode_batch_no_wrapper 1 1 world0); [reflexivity | reflexivity | |].
  - intros [H _]. vm_compute in H. discriminate H.
  - right. right. right. split; [reflexivity |]. split; reflexivity.
Defined.

Lemma prelude_cache_writes self q k v cache md n :
  filter (fun c => is_cache_write c = true) (prelude self q k v cache md n)
  = match cache with
    | Some _ =>
        [reshape_and_cache_flash (Res (n + 1)) (Res (n + 2)) (Res (n + 3))
           (Res (n + 4)) (Res (n + 5)) (FlashInferImpl.kv_cache_dtype self)]
    | None => []
    end.
Proof. by destruct cache. Qed.

Lemma kernel_and_view_no_cache_write c x shape :
  is_cache_write c = false ->
  filter (fun c => is_cache_write c = true) [c; view x shape] = [].
Proof.
  intros Hc. rewrite filter_cons_False by (rewrite Hc; done).
  by rewrite filter_cons_False.
Qed.

(** X9: the cache write.  Without a cache, [forward] never writes.  With a
    cache, a call that passes the argument checks and the batch-shape
    assertions writes exactly once, whether the dispatch that follows
    returns or raises: right after the three reshapes it takes the two slabs
    of the cache and the flattened slot mapping, and writes the reshaped key
    and value.  A call turned down by those checks writes nothing. *)
Theorem forward_cache_write (self : FlashInferImpl.t) (query key val : Torch.tensor)
    (kv_cache : option Torch.tensor) (attn_metadata : FlashInferMetadata.t)
    (k_scale v_scale : float) (attn_type : AttentionType) (w : world) :
  (kv_cache = None ->
   cache_writes w (FlashInferImpl.forward self query key val kv_cache attn_metadata
                     k_scale v_scale attn_type w).2 = []) /\
  (~ (unit_scale k_scale /\ unit_scale v_scale) \/ attn_type <> DECODER \/
   ((0 < FlashInferMetadata.num_prefill_tokens attn_metadata)%N /\
    (0 < FlashInferMetadata.num_decode_tokens attn_metadata)%N) ->
   cache_writes w (FlashInferImpl.forward self query key val kv_cache attn_metadata
                     k_scale v_scale attn_type w).2 = []) /\
  (forall c, kv_cache = Some c ->
   unit_scale k_scale -> unit_scale v_scale -> attn_type = DECODER ->
   ~ ((0 < FlashInferMetadata.num_prefill_tokens attn_metadata)%N /\
      (0 < FlashInferMetadata.num_decode_tokens attn_metadata)%N) ->
   cache_writes w (FlashInferImpl.forward self query key val kv_cache attn_metadata
                     k_scale v_scale attn_type w).2
   = [reshape_and_cache_flash (Res (length (trace w) + 1)) (Res (length (trace w) + 2))
        (Res (length (trace w) + 3)) (Res (length (trace w) + 4))
        (Res (length (trace w) + 5)) (FlashInferImpl.kv_cache_dtype self)] /\
   exists rest,
     new_calls w (FlashInferImpl.forward self query key val kv_cache attn_metadata
                    k_scale v_scale attn_type w).2
     = views self query key val
       ++ [getitem_col (Arg c) 0; getitem_col (Arg c) 1;
           flatten (Arg (FlashInferMetadata.slot_mapping attn_metadata));
           reshape_and_cache_flash (Res (length (trace w) + 1))
             (Res (length (trace w) + 2)) (Res (length (trace w) + 3))
             (Res (length (trace w) + 4)) (Res (length (trace w) + 5))
             (FlashInferImpl.kv_cache_dtype self)]
       ++ rest).
Proof.
  assert (new_calls w w = []) as Hnone.
  { unfold new_calls. by rewrite drop_all. }
  unfold cache_writes.
  destruct (forward_run_cases self query key val kv_cache attn_metadata
              k_scale v_scale attn_type w)
    as [[Hs ->] | [[Ht ->] | (Hk & Hv & -> & [(Hp & Hd & ->) | [Hmixed Hcase]])]];
    simpl.
  - rewrite Hnone. split; [done |]. split; [done |]. intros c _ Hk Hv. by destruct Hs.
  - rewrite Hnone. split; [done |]. split; [done |]. by intros c _ _ _ ->.
  - rewrite new_calls_log. split; [done |]. split; [done |].
    intros c _ _ _ _ []. done.
  - simpl in Hcase.
    assert (exists tail,
      (tail = [] \/ exists c0 x shape, is_cache_write c0 = false /\
                                       tail = [c0; view x shape]) /\
      (FlashInferImpl.forward self query key val kv_cache attn_metadata
         k_scale v_scale DECODER w).2
      = log (prelude self query key val kv_cache attn_metadata (length (trace w))
             ++ tail) w) as (tail & Htail & ->).
    { destruct (kernel_call _ _ _ _ _ _) as [c0 | e0] eqn:Hc.
      - destruct (runnable w c0); rewrite Hcase; simpl.
        + eexists. split; [| reflexivity]. right.
          apply kernel_call_is_kernel in Hc as (_ & _ & Hc). by eauto 10.
        + exists []. split; [by left |]. by rewrite app_nil_r.
      - rewrite Hcase. exists []. split; [by left |]. by rewrite app_nil_r. }
    rewrite new_calls_log, filter_app, prelude_cache_writes.
    assert (filter (fun c => is_cache_write c = true) tail = []) as ->.
    { destruct Htail as [-> | (c0 & x & shape & Hc0 & ->)]; [done |].
      by apply kernel_and_view_no_cache_write. }
    rewrite app_nil_r.
    split; [by intros -> |]. split.
    { intros [Hs | [Ht | Hm]]; [by destruct Hs | done | done]. }
    intros c -> _ _ _ _. split; [done |].
    unfold prelude, views, cache_write_calls. simpl. eexists. reflexivity.
Qed.

Lemma forward_cache_write_witness :
  cache_writes world0
    (FlashInferImpl.forward impl0 q0 k0 v0 (Some cache0) empty_batch 1 1 DECODER world0).2
  = [reshape_and_cache_flash (Res 1) (Res 2) (Res 3) (Res 4) (Res 5) "auto"].
Proof.
  apply (proj2 (proj2 (forward_cache_write impl0 q0 k0 v0 (Some cache0) empty_batch 1 1
                         DECODER world0)) cache0);
    try reflexivity.
  intros [H _]. vm_compute in H. discriminate H.
Defined.

Lemma lookup_log (cs : list call) (w : world) (k : nat) :
  trace (log cs w) !! (length (trace w) + k)%nat = cs !! k.
Proof.
  unfold log. simpl. rewrite lookup_app_r by lia. f_equal. lia.
Qed.

Lemma lookup_log_app_l (pre tl : list call) (w : world) (k : nat) :
  (k < length pre)%nat ->
  trace (log (pre ++ tl) w) !! (length (trace w) + k)%nat = pre !! k.
Proof. intros Hk. rewrite lookup_log. by apply lookup_app_l. Qed.

Lemma lookup_log_app_r (pre tl : list call) (w : world) (k : nat) :
  trace (log (pre ++ tl) w) !! (length (trace w) + length pre + k)%nat = tl !! k.
Proof.
  rewrite <- Nat.add_assoc, lookup_log, lookup_app_r by lia. f_equal. lia.
Qed.

Lemma lookup_log_first (pre tl : list call) (w : world) :
  (0 < length pre)%nat ->
  trace (log (pre ++ tl) w) !! length (trace w) = pre !! 0%nat.
Proof.
  intros Hk. pose proof (lookup_log_app_l pre tl w 0%nat Hk) as H.
  by rewrite Nat.add_0_r in H.
Qed.

Lemma lookup_log_kernel (pre : list call) (c c' : call) (w : world) :
  trace (log (pre ++ [c; c']) w) !! (length (trace w) + length pre)%nat = Some c /\
  trace (log (pre ++ [c; c']) w) !! S (length (trace w) + length pre) = Some c'.
Proof.
  pose proof (lookup_log_app_r pre [c; c'] w 0%nat) as H0.
  pose proof (lookup_log_app_r pre [c; c'] w 1%nat) as H1.
  rewrite Nat.add_0_r in H0. rewrite Nat.add_1_r in H1. done.
Qed.

Lemma prelude_ends self q k v cache md n :
  prelude self q k v cache md n !! 0%nat
  = Some (view (Arg q) [Lit (-1); Lit (FlashInferImpl.num_heads self);
                        Lit (FlashInferImpl.head_size self)]) /\
  (0 < length (prelude self q k v cache md n))%nat /\
  prelude self q k v cache md n !! (length (prelude self q k v cache md n) - 1)%nat
  = Some (contiguous (Res n)).
Proof. destruct cache; simpl; repeat split; lia. Qed.

(** X10: what the kernel is given and what [forward] returns.  On a call
    that returns, the log grows by the prelude (the three reshapes, the
    cache write if any, the contiguous copy), one kernel call and one
    reshape, in this order, so the cache write precedes the kernel.  The
    kernel's query is the contiguous copy of the reshaped query, and the
    value returned is the kernel's result reshaped to the two sizes of the
    query as it was passed in. *)
Theorem forward_kernel_io (self : FlashInferImpl.t) (query key val : Torch.tensor)
    (kv_cache : option Torch.tensor) (attn_metadata : FlashInferMetadata.t)
    (k_scale v_scale : float) (attn_type : AttentionType) (w w' : world)
    (out : value) :
  FlashInferImpl.forward self query key val kv_cache attn_metadata
    k_scale v_scale attn_type w = (Ok out, w') ->
  exists (c : call) (i j : nat),
    new_calls w w'
    = prelude self query key val kv_cache attn_metadata (length (trace w))
      ++ [c; view (Res j) [Size (Arg query) 0; Size (Arg query) 1]] /\
    is_Some (path_of_call c) /\
    trace w' !! length (trace w)
    = Some (view (Arg query) [Lit (-1); Lit (FlashInferImpl.num_heads self);
                              Lit (FlashInferImpl.head_size self)]) /\
    trace w' !! i = Some (contiguous (Res (length (trace w)))) /\
    query_of_call c = Some (Res i) /\
    trace w' !! j = Some c /\
    trace w' !! S j
    = Some (view (Res j) [Size (Arg query) 0; Size (Arg query) 1]) /\
    out = Res (S j) /\
    length (trace w') = S (S j).
Proof.
  intros Hrun.
  destruct (forward_run_cases self query key val kv_cache attn_metadata
              k_scale v_scale attn_type w)
    as [[_ Heq] | [[_ Heq] | (_ & _ & _ & [(_ & _ & Heq) | [_ Hcase]])]];
    try (rewrite Heq in Hrun; discriminate Hrun).
  cbv zeta in Hcase.
  destruct (prelude_ends self query key val kv_cache attn_metadata (length (trace w)))
    as (Hfirst & Hlen & Hlast).
  remember (prelude self query key val kv_cache attn_metadata (length (trace w)))
    as pre eqn:Hpre.
  destruct (kernel_call _ _ _ _ _ _) as [c | e] eqn:Hc;
    [| rewrite Hcase in Hrun; discriminate Hrun].
  destruct (runnable w c); rewrite Hcase in Hrun; [| discriminate Hrun].
  injection Hrun as <- <-.
  apply kernel_call_is_kernel in Hc as (Hpath & Hquery & _).
  exists c, (length (trace w) + length pre - 1)%nat, (length (trace w) + length pre)%nat.
  split; [by rewrite new_calls_log |]. split; [done |].
  split; [by rewrite lookup_log_first |].
  split.
  { replace (length (trace w) + length pre - 1)%nat
      with (length (trace w) + (length pre - 1))%nat by lia.
    rewrite lookup_log_app_l by lia. done. }
  split; [done |].
  split; [apply lookup_log_kernel |].
  split; [apply lookup_log_kernel |].
  split; [f_equal; lia |].
  rewrite length_trace_log, length_app. simpl. lia.
Qed.

Lemma forward_kernel_io_witness :
  exists (c : call) (i j : nat),
    new_calls decode_ready.2 decode_run.2
    = prelude impl0 q0 k0 v0 (Some cache0) decode_ready.1 (length (trace decode_ready.2))
      ++ [c; view (Res j) [Size (Arg q0) 0; Size (Arg q0) 1]] /\
    is_Some (path_of_call c) /\
    trace decode_run.2 !! length (trace decode_ready.2)
    = Some (view (Arg q0) [Lit (-1); Lit (FlashInferImpl.num_heads impl0);
                           Lit (FlashInferImpl.head_size impl0)]) /\
    trace decode_run.2 !! i = Some (contiguous (Res (length (trace decode_ready.2)))) /\
    query_of_call c = Some (Res i) /\
    trace decode_run.2 !! j = Some c /\
    trace decode_run.2 !! S j
    = Some (view (Res j) [Size (Arg q0) 0; Size (Arg q0) 1]) /\
    Res 9 = Res (S j) /\
    length (trace decode_run.2) = S (S j).
Proof.
  apply (forward_kernel_io impl0 q0 k0 v0 (Some cache0) decode_ready.1 1 1 DECODER
           decode_ready.2 decode_run.2 (Res 9)).
  vm_compute. reflexivity.
Defined.

Lemma can_forward_nonempty (s : Wrapper.session) :
  Wrapper.can_forward s = true <-> s <> [].
Proof. by destruct s. Qed.


(** X11: what a [forward] that returns tells.  The key and value scales
    are 1, the attention type is [DECODER], and either the batch is
    classified as a prefill (no decode token, some prefill request) and there
    is no cache or the prefill wrapper holds a plan, or the batch is a decode
    (decode tokens, no prefill token, no prefill request) and the decode
    wrapper holds a plan. *)
Theorem forward_returns_only_if_ready (self : FlashInferImpl.t)
    (query key val : Torch.tensor) (kv_cache : option Torch.tensor)
    (attn_metadata : FlashInferMetadata.t) (k_scale v_scale : float)
    (attn_type : AttentionType) (w w' : world) (out : value) :
  FlashInferImpl.forward self query key val kv_cache attn_metadata
    k_scale v_scale attn_type w = (Ok out, w') ->
  unit_scale k_scale /\ unit_scale v_scale /\ attn_type = DECODER /\
  forward_ready kv_cache attn_metadata w.
Proof.
  intros Hrun.
  destruct (forward_run_cases self query key val kv_cache attn_metadata
              k_scale v_scale attn_type w)
    as [[_ Heq] | [[_ Heq] | (Hk & Hv & Ht & [(_ & _ & Heq) | [Hmixed Hcase]])]];
    try (rewrite Heq in Hrun; discriminate Hrun).
  split; [done |]. split; [done |]. split; [done |].
  simpl in Hcase.
  destruct (kernel_call _ _ _ _ _ _) as [c | e] eqn:Hc;
    [| rewrite Hcase in Hrun; discriminate Hrun].
  destruct (runnable w c) eqn:Hplan; rewrite Hcase in Hrun; [| discriminate Hrun].
  unfold runnable in Hplan. unfold forward_ready.
  apply kernel_call_ok_inv in Hc
    as [(Hd & Hn & Hcache & _ & _) | [(Hd & Hn & Hcache & _ & r & Hr & Hw)
                                     | (Hd & Hn & _ & r & Hr & Hw)]].
  - left. by eauto.
  - left. rewrite Hw in Hplan. apply can_forward_nonempty in Hplan. by eauto 10.
  - right. rewrite Hw in Hplan. apply can_forward_nonempty in Hplan.
    repeat split; [done | lia | done | by eauto].
Qed.

Lemma forward_returns_only_if_ready_witness :
  unit_scale 1 /\ unit_scale 1 /\ DECODER = DECODER /\
  forward_ready (Some cache0) decode_ready.1 decode_ready.2.
Proof.
  apply (forward_returns_only_if_ready impl0 q0 k0 v0 (Some cache0) decode_ready.1
           1 1 DECODER decode_ready.2 decode_run.2 (Res 9)).
  vm_compute. reflexivity.
Defined.



(** What [forward] can have logged: nothing, the three reshapes, or the
    prelude followed, when the call returned, by a kernel call and the final
    reshape. *)
Lemma forward_new_calls self q k v cache md ks vs ty w :
  new_calls w (FlashInferImpl.forward self q k v cache md ks vs ty w).2 = [] \/
  new_calls w (FlashInferImpl.forward self q k v cache md ks vs ty w).2
  = views self q k v \/
  exists tail,
    new_calls w (FlashInferImpl.forward self q k v cache md ks vs ty w).2
    = prelude self q k v cache md (length (trace w)) ++ tail /\
    ((tail = [] /\
      exists e, (FlashInferImpl.forward self q k v cache md ks vs ty w).1 = Raise e) \/
     exists c x shape, is_Some (path_of_call c) /\ tail = [c; view x shape]).
Proof.
  assert (new_calls w w = []) as Hnone.
  { unfold new_calls. by rewrite drop_all. }
  destruct (forward_run_cases self q k v cache md ks vs ty w)
    as [[_ ->] | [[_ ->] | (_ & _ & _ & [(_ & _ & ->) | [_ Hcase]])]]; simpl.
  - by left.
  - by left.
  - right. left. by rewrite new_calls_log.
  - right. right. cbv zeta in Hcase.
    destruct (kernel_call _ _ _ _ _ _) as [c | e] eqn:Hc.
    + destruct (runnable w c); rewrite Hcase; simpl; rewrite new_calls_log.
      * eexists. split; [reflexivity |]. right.
        apply kernel_call_is_kernel in Hc as (Hpath & _). by eauto 10.
      * exists []. rewrite app_nil_r. split; [done |]. left. by eauto.
    + rewrite Hcase. simpl. rewrite new_calls_log.
      exists []. rewrite app_nil_r. split; [done |]. left. by eauto.
Qed.

(** X13: every check of [forward] comes before the kernel call.  When
    [forward] raises one of its own exceptions, an [AssertionError] or
    [NotImplementedError], it has run no attention kernel and invoked no
    wrapper. *)
Theorem forward_checks_before_kernel (self : FlashInferImpl.t)
    (query key val : Torch.tensor) (kv_cache : option Torch.tensor)
    (attn_metadata : FlashInferMetadata.t) (k_scale v_scale : float)
    (attn_type : AttentionType) (w w' : world) (e : exn) :
  FlashInferImpl.forward self query key val kv_cache attn_metadata
    k_scale v_scale attn_type w = (Raise e, w') ->
  (exists msg, e = AssertionError msg) \/ e = NotImplementedError ->
  paths_taken w w' = [] /\ wrappers_invoked w w' = [].
Proof.
  intros Hrun Hown. unfold paths_taken, wrappers_invoked.
  assert (new_calls w w = []) as Hnone.
  { unfold new_calls. by rewrite drop_all. }
  destruct (forward_run_cases self query key val kv_cache attn_metadata
              k_scale v_scale attn_type w)
    as [[_ Heq] | [[_ Heq] | (_ & _ & _ & [(_ & _ & Heq) | [_ Hcase]])]].
  - rewrite Heq in Hrun. injection Hrun as _ <-. by rewrite Hnone.
  - rewrite Heq in Hrun. injection Hrun as _ <-. by rewrite Hnone.
  - rewrite Heq in Hrun. injection Hrun as _ <-. by rewrite new_calls_log.
  - cbv zeta in Hcase.
    pose proof (prelude_paths self query key val kv_cache attn_metadata
                  (length (trace w))) as [Hpaths Hwrappers].
    destruct (kernel_call _ _ _ _ _ _) as [c0 | e0].
    + destruct (runnable w c0); rewrite Hcase in Hrun; [done |].
      injection Hrun as <- _. by destruct Hown as [[msg Hmsg] | Hni].
    + rewrite Hcase in Hrun. injection Hrun as _ <-.
      by rewrite new_calls_log, Hpaths, Hwrappers.
Qed.

Lemma forward_checks_before_kernel_witness :
  paths_taken world0
    (log (prelude impl0 q0 k0 v0 (Some cache0) empty_batch 0) world0) = [] /\
  wrappers_invoked world0
    (log (prelude impl0 q0 k0 v0 (Some cache0) empty_batch 0) world0) = [].
Proof.
  apply (forward_checks_before_kernel impl0 q0 k0 v0 (Some cache0) empty_batch
           1 1 DECODER world0 _ (AssertionError None)).
  - vm_compute. reflexivity.
  - left. exists None. reflexivity.
Defined.

(** X14: the cache is only ever indexed at its two slabs.  Every column
    that [forward] takes is a column of the cache it was given, at index 0
    or 1, within the axis of size 2 that [get_kv_cache_shape] declares
    second. *)
Theorem forward_slab_indices (self : FlashInferImpl.t)
    (query key val : Torch.tensor) (kv_cache : option Torch.tensor)
    (attn_metadata : FlashInferMetadata.t) (k_scale v_scale : float)
    (attn_type : AttentionType) (w : world) (x : value) (i : Z)
    (num_blocks block_size num_kv_heads head_size : Z) :
  getitem_col x i ∈
    new_calls w (FlashInferImpl.forward self query key val kv_cache attn_metadata
                   k_scale v_scale attn_type w).2 ->
  exists c d,
    kv_cache = Some c /\ x = Arg c /\
    FlashInferBackend.get_kv_cache_shape num_blocks block_size num_kv_heads head_size
      !! 1%nat = Some d /\
    0 <= i < d.
Proof.
  intros Hin.
  destruct (forward_new_calls self query key val kv_cache attn_metadata
              k_scale v_scale attn_type w)
    as [Hcalls | [Hcalls | (tail & Hcalls & Htail)]]; rewrite Hcalls in Hin.
  - by apply elem_of_nil in Hin.
  - unfold views in Hin. rewrite !elem_of_cons, elem_of_nil in Hin.
    by destruct Hin as [? | [? | [? | ?]]].
  - apply elem_of_app in Hin as [Hin | Hin].
    + unfold prelude, views, cache_write_calls in Hin.
      destruct kv_cache as [c |]; simpl in Hin;
        rewrite !elem_of_cons, elem_of_nil in Hin.
      * destruct Hin as [? | [? | [? | [Hc | [Hc | [? | [? | [? | ?]]]]]]]]; try done.
        -- injection Hc as -> ->. exists c, 2. repeat split; try done; lia.
        -- injection Hc as -> ->. exists c, 2. repeat split; try done; lia.
      * by destruct Hin as [? | [? | [? | [? | ?]]]].
    + destruct Htail as [[-> _] | (c & y & shape & [p Hp] & ->)].
      * by apply elem_of_nil in Hin.
      * rewrite !elem_of_cons, elem_of_nil in Hin.
        destruct Hin as [<- | [? | ?]]; done.
Qed.

Lemma forward_slab_indices_witness :
  exists c d,
    Some cache0 = Some c /\ Arg cache0 = Arg c /\
    FlashInferBackend.get_kv_cache_shape 1024 16 8 128 !! 1%nat = Some d /\
    0 <= 1 < d.
Proof.
  apply (forward_slab_indices impl0 q0 k0 v0 (Some cache0) decode_ready.1 1 1 DECODER
           decode_ready.2 (Arg cache0) 1 1024 16 8 128).
  vm_compute. apply list_elem_of_In. simpl. tauto.
Defined.

(** *** Construction, then planning *)

(** X15: the check of the constructor reaches the kernel.  When metadata
    that came out of the constructor is planned by [begin_forward], the plan
    the phase's wrapper holds afterwards was made with the metadata's head
    dimension, which is 64, 128 or 256 when it is given at all. *)
Theorem planned_head_dim_supported (fields md md' : FlashInferMetadata.t)
    (w w' : world) :
  FlashInferMetadata.new fields = Ok md ->
  FlashInferMetadata.begin_forward (md, w) = (Ok tt, (md', w')) ->
  FlashInferMetadata.paged_kv_indices md <> None \/
  FlashInferMetadata.num_prefill_tokens md = 0%N ->
  exists r p,
    phase_wrapper md = Some r /\ session_of w' r = [p] /\
    plan_head_dim p = FlashInferMetadata.head_dim fields /\
    forall d, plan_head_dim p = Some d -> d = 64 \/ d = 128 \/ d = 256.
Proof.
  intros Hnew Hrun Hplans.
  assert (md = fields /\
          forall d, FlashInferMetadata.head_dim md = Some d ->
                    d = 64 \/ d = 128 \/ d = 256) as [-> Hdim].
  { unfold FlashInferMetadata.new in Hnew.
    destruct (FlashInferMetadata.__post_init__ fields) eqn:Hpost; [| done].
    injection Hnew as <-. split; [done |]. intros d Hd.
    rewrite (post_init_supported _ d Hd) in Hpost.
    destruct (decide (d = 64 \/ d = 128 \/ d = 256)) as [Hin | Hout]; [done |].
    by rewrite bool_decide_eq_false_2 in Hpost. }
  apply begin_forward_complete in Hrun. unfold phase_wrapper.
  destruct Hrun as [Hpos Hi | r i p l Hpos Hr Hi Hp Hl | r i p l Hz Hcg Hr Hi Hp Hl
                    | r Hz Hcg Hr].
  - destruct Hplans as [Hne | Hz]; [done | lia].
  - apply N.ltb_lt in Hpos. rewrite Hpos. eexists r, _.
    split; [done |]. split; [apply session_of_set_session |]. by split.
  - rewrite Hz. simpl. eexists r, _.
    split; [done |]. split; [apply session_of_set_session |]. by split.
  - rewrite Hz. simpl. eexists r, _.
    split; [done |]. split; [apply session_of_set_session |]. by split.
Qed.

Lemma planned_head_dim_supported_witness :
  exists r p,
    phase_wrapper (decode_batch false) = Some r /\ session_of decode_ready.2 r = [p] /\
    plan_head_dim p = FlashInferMetadata.head_dim (decode_batch false) /\
    forall d, plan_head_dim p = Some d -> d = 64 \/ d = 128 \/ d = 256.
Proof.
  assert (FlashInferMetadata.begin_forward (decode_batch false, world0)
          = (Ok tt, (decode_ready.1, decode_ready.2))) as Hrun
    by (vm_compute; reflexivity).
  apply (planned_head_dim_supported (decode_batch false) _ _ _ _ eq_refl Hrun).
  by right.
Defined.
